(** * AskDeck API backend (server.js): a shallow embedding and its properties

    The server exposes two routes.  [POST /api/askdeck] builds a prompt from
    the two body fields [context] and [message], submits it to the remote
    generative model through the SDK handle [model], and maps what comes back
    to an HTTP response.  [GET /api/health] answers with a fixed payload.

    JavaScript values are embedded as the inductive [jsval]; the effects of a
    handler (console output, the remote submission, the response written to
    [res]) are recorded, in order, in a trace of [event]s carried by the
    exception monad [js].

    The source holds two revisions of server.js.  The embedding follows the
    current one (model "gemini-2.0-flash", temperature 0.1); the earlier one
    differs in the model identifier, the temperature, the wording of the
    configuration error and what is written to the console; it is embedded
    in [Module Earlier] and compared with the current one at the end. *)

From Stdlib Require Import ZArith QArith String Ascii List.
From stdpp Require Import base option strings list gmap pretty.

Local Open Scope Z_scope.
Set Warnings "-register-all".

(** ** JavaScript values *)

(** Values held by [req.body] and handed to [res.json].  Numbers are IEEE
    doubles in JavaScript; the handlers only ever test them for truthiness
    and interpolate them in a template literal, so the number type is a
    parameter that comes with these two operations ([JsRuntime] below). *)
Inductive jsval (num : Type) : Type :=
  | JUndefined
  | JNull
  | JBool (b : bool)
  | JNum (n : num)
  | JStr (s : string)
  | JArr (elems : list (jsval num))
  | JObj (props : gmap string (jsval num)).

Arguments JUndefined {num}.
Arguments JNull {num}.
Arguments JBool {num} b.
Arguments JNum {num} n.
Arguments JStr {num} s.
Arguments JArr {num} elems.
Arguments JObj {num} props.

(** A thrown [Error]: the handler reads [error.message] and [error.stack]. *)
Record JsError : Type := mkError { error_message : string; error_stack : string }.

(** What the JavaScript engine supplies and the source does not spell out. *)
Class JsRuntime (num : Type) : Type := {
  (** ToBoolean on a number: false exactly on +0, -0 and NaN. *)
  num_truthy : num -> bool;
  (** Number::toString in radix 10. *)
  num_toString : num -> string;
  (** The TypeError raised by destructuring [undefined] or [null]; the
      arguments are the first property asked for and the value. *)
  destructure_error : string -> jsval num -> JsError;
  (** The TypeError raised when an object has no primitive value. *)
  toPrimitive_error : jsval num -> JsError
}.

Section Values.
Context {num : Type} `{JsRuntime num}.

(** ToBoolean, the test behind [!x], [x && y] and [if (x)]. *)
Definition ToBoolean (v : jsval num) : bool :=
  match v with
  | JUndefined | JNull => false
  | JBool b => b
  | JNum n => num_truthy n
  | JStr s => match s with EmptyString => false | String _ _ => true end
  | JArr _ | JObj _ => true
  end.

(** ToString, the conversion applied by [`${x}`] and by [Array.prototype.join];
    it may throw.  An array prints as its elements joined by commas,
    [undefined] and [null] elements printing as nothing, and throws as soon
    as one of its elements does.  An object is printed by the [toString] it
    inherits, as "[object Object]", unless it has a property [toString] of
    its own: no value of [jsval] is callable, the inherited [valueOf]
    returns the object itself, and the conversion throws a TypeError. *)
Fixpoint ToString (v : jsval num) : JsError + string :=
  match v with
  | JUndefined => inr "undefined"
  | JNull => inr "null"
  | JBool true => inr "true"
  | JBool false => inr "false"
  | JNum n => inr (num_toString n)
  | JStr s => inr s
  | JArr elems =>
      (fix join (l : list (jsval num)) : JsError + string :=
         match l with
         | [] => inr ""
         | x :: rest =>
             match match x with
                   | JUndefined | JNull => inr ""
                   | _ => ToString x
                   end with
             | inl e => inl e
             | inr sx =>
                 match rest with
                 | [] => inr sx
                 | _ :: _ =>
                     match join rest with
                     | inl e => inl e
                     | inr sr => inr (sx +:+ "," +:+ sr)
                     end
                 end
             end
         end) elems
  | JObj props =>
      match props !! "toString" with
      | Some _ => inl (toPrimitive_error v)
      | None => inr "[object Object]"
      end
  end.

(** Property read [o[k]] as done by a destructuring pattern: [undefined]
    and [null] have no properties and raise; an object yields the property
    or [undefined]; the handlers ask for no property that a boolean,
    number, string or array carries. *)
Definition GetV (o : jsval num) (k : string) : JsError + jsval num :=
  match o with
  | JUndefined | JNull => inl (destructure_error k o)
  | JObj props => inr (default JUndefined (props !! k))
  | _ => inr JUndefined
  end.
End Values.

(** ** The remote service as seen through the SDK *)

(** The fields of a [GenerateContentResult] that the handler looks at.  A
    field the remote may leave out is an [option]; [None] stands for
    [undefined]. *)
Record Part : Type := mkPart { text : option string }.
Record Content : Type := mkContent { parts : option (list Part) }.
Record Candidate : Type := mkCandidate { content : option Content }.
Record PromptFeedback : Type := mkFeedback { blockReason : option string }.
Record Response : Type := mkResponse {
  candidates : option (list Candidate);
  promptFeedback : option PromptFeedback
}.
Record Result : Type := mkResult { response : option Response }.

Inductive HarmCategory : Type :=
  | HARM_CATEGORY_HARASSMENT
  | HARM_CATEGORY_HATE_SPEECH
  | HARM_CATEGORY_SEXUALLY_EXPLICIT
  | HARM_CATEGORY_DANGEROUS_CONTENT.

Inductive HarmBlockThreshold : Type :=
  | BLOCK_MEDIUM_AND_ABOVE.

Record SafetySetting : Type := mkSafety {
  category : HarmCategory;
  threshold : HarmBlockThreshold
}.

Record GenerationConfig : Type := mkGenerationConfig {
  temperature : Q;
  topP : Q;
  topK : Z;
  maxOutputTokens : Z;
  responseMimeType : string
}.

(** The argument of [model.startChat]. *)
Record StartChatParams : Type := mkStartChat {
  chat_generationConfig : GenerationConfig;
  chat_safetySettings : list SafetySetting;
  chat_history : list Content
}.

(** [await chatSession.sendMessage(prompt)] either resolves to a result or
    rejects with an error. *)
Inductive Settled : Type :=
  | Resolved (result : Result)
  | Rejected (error : JsError).

(** The handle returned by [genAI.getGenerativeModel]: opening a chat
    session and sending one message is one submission to the remote
    service, whose answer is whatever the remote decides. *)
Record GenerativeModel : Type := mkModel {
  model_id : string;
  sendMessage : StartChatParams -> string -> Settled
}.

Definition generationConfig : GenerationConfig :=
  {| temperature := 1 # 10;
     topP := 95 # 100;
     topK := 64;
     maxOutputTokens := 8192;
     responseMimeType := "text/plain" |}.

Definition safetySettings : list SafetySetting :=
  [ mkSafety HARM_CATEGORY_HARASSMENT BLOCK_MEDIUM_AND_ABOVE;
    mkSafety HARM_CATEGORY_HATE_SPEECH BLOCK_MEDIUM_AND_ABOVE;
    mkSafety HARM_CATEGORY_SEXUALLY_EXPLICIT BLOCK_MEDIUM_AND_ABOVE;
    mkSafety HARM_CATEGORY_DANGEROUS_CONTENT BLOCK_MEDIUM_AND_ABOVE ].

Definition chatParams : StartChatParams :=
  {| chat_generationConfig := generationConfig;
     chat_safetySettings := safetySettings;
     chat_history := [] |}.

(** ** Effects: console, remote submission, response *)

Inductive ConsoleLevel : Type := LevelLog | LevelWarn | LevelError.

(** An argument of a [console] call. *)
Inductive LogArg : Type :=
  | LStr (s : string)
  | LResponse (r : option Response)
  | LFeedback (f : option PromptFeedback).

(** What a handler does to the outside world: the [console] calls written
    in server.js (not what a library may write on its own), the submission
    to the remote service, the response.  The body of [Send] is the
    value handed to [res.json], which Express serialises with
    [JSON.stringify]; a property whose value is [undefined] is left out of
    the serialised text. *)
Inductive event (num : Type) : Type :=
  | Console (level : ConsoleLevel) (args : list LogArg)
  | Submit (params : StartChatParams) (prompt : string)
  | Send (status : Z) (body : jsval num).

Arguments Console {num} level args.
Arguments Submit {num} params prompt.
Arguments Send {num} status body.

(** A computation that leaves a trace and ends with a value or a thrown
    error. *)
Definition js (num A : Type) : Type := (list (event num) * (JsError + A))%type.

Section Monad.
Context {num : Type}.

Definition js_ret {A} (a : A) : js num A := ([], inr a).

Definition js_bind {A B} (f : A -> js num B) (m : js num A) : js num B :=
  match m with
  | (t, inl e) => (t, inl e)
  | (t, inr a) => let '(t', r) := f a in (t ++ t', r)
  end.

Definition throw {A} (e : JsError) : js num A := ([], inl e).

Definition emit (ev : event num) : js num unit := ([ev], inr tt).

(** [try { m } catch (error) { h error }] *)
Definition try_catch {A} (m : js num A) (h : JsError -> js num A) : js num A :=
  match m with
  | (t, inl e) => let '(t', r) := h e in (t ++ t', r)
  | (t, inr a) => (t, inr a)
  end.

(** A property read or a call that may throw. *)
Definition lift {A} (r : JsError + A) : js num A :=
  match r with
  | inl e => throw e
  | inr a => js_ret a
  end.

Definition trace {A} (m : js num A) : list (event num) := fst m.
End Monad.

#[global] Instance js_mret {num} : MRet (js num) := @js_ret num.
#[global] Instance js_mbind {num} : MBind (js num) := @js_bind num.

(** Projections of a trace. *)
Definition responses {num} (t : list (event num)) : list (Z * jsval num) :=
  omap (fun ev => match ev with Send st b => Some (st, b) | _ => None end) t.

Definition submissions {num} (t : list (event num)) : list (StartChatParams * string) :=
  omap (fun ev => match ev with Submit p q => Some (p, q) | _ => None end) t.

Definition console_output {num} (t : list (event num)) : list (ConsoleLevel * list LogArg) :=
  omap (fun ev => match ev with Console l a => Some (l, a) | _ => None end) t.

(** ** The server *)

(** The two routes registered on [app]; matching a URL to a route is
    Express's business. *)
Inductive Route : Type := POST_api_askdeck | GET_api_health.

(** The part of [req] the handlers read: the body left by [express.json()]. *)
Record Request (num : Type) : Type := mkRequest { req_body : jsval num }.
Arguments mkRequest {num} req_body.
Arguments req_body {num} r.

Definition LF : string := String "010"%char EmptyString.

Section Server.
Context {num : Type} `{JsRuntime num}.

Definition console_log (args : list LogArg) : js num unit :=
  emit (Console LevelLog args).
Definition console_warn (args : list LogArg) : js num unit :=
  emit (Console LevelWarn args).
Definition console_error (args : list LogArg) : js num unit :=
  emit (Console LevelError args).

(** [res.status(st).json(body)] *)
Definition res_status_json (st : Z) (body : jsval num) : js num unit :=
  emit (Send st body).

(** [res.json(body)]: the status stays at Express's default, 200. *)
Definition res_json (body : jsval num) : js num unit :=
  res_status_json 200 body.

(** [await model.startChat(params).sendMessage(prompt)] *)
Definition submit (model : GenerativeModel) (params : StartChatParams)
    (prompt : string) : js num Result :=
  emit (Submit params prompt);;
  match sendMessage model params prompt with
  | Resolved result => mret result
  | Rejected error => throw error
  end.

(** Initialisation of the module-level [model] (lines 15 to 34):
    [getGenerativeModel key id] stands for
    [new GoogleGenerativeAI(key).getGenerativeModel({ model: id })]. *)
Definition MODEL_ID : string := "gemini-2.0-flash".

Definition startup (apiKey : option string)
    (getGenerativeModel : string -> string -> JsError + GenerativeModel)
    : js num (option GenerativeModel) :=
  match apiKey with
  | Some (String _ _ as key) =>
      try_catch
        (model ← lift (getGenerativeModel key MODEL_ID);
         console_log [LStr "Google AI SDK Initialized successfully (attempting to use gemini-2.0-flash)."];;
         mret (Some model))
        (fun e =>
           console_error [LStr "Error initializing Google AI SDK:"; LStr (error_message e)];;
           mret None)
  | Some EmptyString | None =>
      console_error [LStr "CRITICAL ERROR: GOOGLE_API_KEY is not set in environment. AI features will not work."];;
      mret None
  end.

(** The template literal of line 63: [context] is converted first, then
    [message], and either conversion may throw. *)
Definition fullPrompt (context message : jsval num) : JsError + string :=
  match ToString context with
  | inl e => inl e
  | inr context =>
      match ToString message with
      | inl e => inl e
      | inr message =>
          inr (context +:+ LF +:+ LF +:+ "---" +:+ LF +:+ LF +:+
               "User Question: " +:+ message +:+ LF +:+ LF +:+
               "AskDeck Response:")
      end
  end.

(** [result.response.candidates[0].content.parts] when every link of the
    chain tested on line 67 up to it is truthy (for the candidate list
    that includes [length > 0]: there is an element at index 0). *)
Definition first_candidate_parts (result : Result) : option (list Part) :=
  r ← response result;
  cs ← candidates r;
  c0 ← cs !! 0%nat;
  ct ← content c0;
  parts ct.

(** [result.response?.promptFeedback?.blockReason] *)
Definition prompt_blockReason (result : Result) : option string :=
  r ← response result;
  fb ← promptFeedback r;
  blockReason fb.

(** [part.text] as a JavaScript value. *)
Definition part_text (p : Part) : jsval num :=
  match text p with
  | Some s => JStr s
  | None => JUndefined
  end.

(** Lines 67 to 78: what the handler does with a resolved result. *)
Definition relay (result : Result) : js num unit :=
  match first_candidate_parts result with
  | Some (p0 :: _) =>
      res_json (JObj {[ "reply" := part_text p0 ]})
  | Some [] | None =>
      match prompt_blockReason result with
      | Some (String _ _ as reason) =>
          console_warn [LStr "AI response blocked. Reason:"; LStr reason;
                        LFeedback (response result ≫= promptFeedback)];;
          res_status_json 500 (JObj {[ "error" := JStr ("Response blocked: " +:+ reason) ]})
      | Some EmptyString | None =>
          console_error [LStr "No valid candidate response from AI:";
                         LResponse (response result)];;
          res_status_json 500 (JObj {[ "error" := JStr "AI did not provide a valid response." ]})
      end
  end.

(** [app.post('/api/askdeck', ...)], lines 53 to 83. *)
Definition askdeck (model : option GenerativeModel) (req : Request num)
    : js num unit :=
  match model with
  | None =>
      console_error [LStr "/api/askdeck called, but AI model is not initialized."];;
      res_status_json 500
        (JObj {[ "error" := JStr "AI service is not configured correctly on the server. Check model ID and API key." ]})
  | Some model =>
      try_catch
        (message ← lift (GetV (req_body req) "message");
         context ← lift (GetV (req_body req) "context");
         if negb (ToBoolean message) || negb (ToBoolean context) then
           res_status_json 400
             (JObj {[ "error" := JStr "Message and context are required." ]})
         else
           fullPrompt ← lift (fullPrompt context message);
           result ← submit model chatParams fullPrompt;
           relay result)
        (fun error =>
           console_error [LStr "Error in /api/askdeck endpoint:";
                          LStr (error_message error); LStr (error_stack error)];;
           res_status_json 500
             (JObj {[ "error" := JStr ("Failed to get response from AI: " +:+ error_message error) ]}))
  end.

(** [app.get("/api/health", ...)], lines 85 to 87. *)
Definition health (req : Request num) : js num unit :=
  res_json (JObj (<[ "status" := JStr "ok" ]>
                  {[ "message" := JStr "AskDeck API backend is running on Render." ]})).

(** One request served by the running process, whose [model] was fixed at
    startup. *)
Definition app (model : option GenerativeModel) (route : Route)
    (req : Request num) : js num unit :=
  match route with
  | POST_api_askdeck => askdeck model req
  | GET_api_health => health req
  end.
End Server.

(** ** The rest of the module: port and listen callback *)

(** [process.env.PORT || 3000] (line 8): a variable of the environment is a
    string when it is set, and the empty string is falsy. *)
Definition PORT (env_PORT : option string) : string + Z :=
  match env_PORT with
  | Some (String _ _ as p) => inl p
  | Some EmptyString | None => inr 3000
  end.

(** [`${PORT}`] *)
Definition PORT_toString (port : string + Z) : string :=
  match port with
  | inl s => s
  | inr n => pretty n
  end.

Section Listen.
Context {num : Type} `{JsRuntime num}.

(** The callback handed to [app.listen] (lines 89 to 94), run once the
    socket is bound; [apiKey] and [model] are the module-level variables. *)
Definition listening (port : string + Z) (apiKey : option string)
    (model : option GenerativeModel) : js num unit :=
  console_log [LStr ("AskDeck API backend is listening on port " +:+ PORT_toString port)];;
  match apiKey with
  | Some EmptyString | None =>
      console_log [LStr "WARNING: GOOGLE_API_KEY is missing."]
  | Some (String _ _) =>
      match model with
      | None =>
          console_log [LStr "WARNING: Google AI Model could not be initialized. Verify the model ID in server.js and API key permissions."]
      | Some _ =>
          console_log [LStr "Backend ready."]
      end
  end.
End Listen.

(** ** The earlier revision of server.js (second listing) *)

Module Earlier.
Section Server.
Context {num : Type} `{JsRuntime num}.

Definition MODEL_ID : string := "gemini-1.5-flash-latest".

Definition generationConfig : GenerationConfig :=
  {| temperature := 7 # 10;
     topP := 95 # 100;
     topK := 64;
     maxOutputTokens := 8192;
     responseMimeType := "text/plain" |}.

Definition chatParams : StartChatParams :=
  {| chat_generationConfig := generationConfig;
     chat_safetySettings := safetySettings;
     chat_history := [] |}.

Definition startup (apiKey : option string)
    (getGenerativeModel : string -> string -> JsError + GenerativeModel)
    : js num (option GenerativeModel) :=
  match apiKey with
  | Some (String _ _ as key) =>
      try_catch
        (model ← lift (getGenerativeModel key MODEL_ID);
         console_log [LStr "Google AI SDK Initialized successfully."];;
         mret (Some model))
        (fun e =>
           console_error [LStr "Error initializing Google AI SDK:"; LStr (error_message e)];;
           mret None)
  | Some EmptyString | None =>
      console_error [LStr "CRITICAL ERROR: GOOGLE_API_KEY is not set in environment. AI features will not work."];;
      mret None
  end.

(** What the earlier handler does with a resolved result: the raw response
    goes to [console.error] whether or not a block reason is found. *)
Definition relay (result : Result) : js num unit :=
  match first_candidate_parts result with
  | Some (p0 :: _) =>
      res_json (JObj {[ "reply" := part_text p0 ]})
  | Some [] | None =>
      let errorMsg :=
        match prompt_blockReason result with
        | Some (String _ _ as reason) => "Response blocked: " +:+ reason
        | Some EmptyString | None => "AI did not provide a valid response."
        end in
      console_error [LStr "No valid candidate response from AI:";
                     LResponse (response result)];;
      res_status_json 500 (JObj {[ "error" := JStr errorMsg ]})
  end.

Definition askdeck (model : option GenerativeModel) (req : Request num)
    : js num unit :=
  match model with
  | None =>
      console_error [LStr "/api/askdeck called, but AI model is not initialized."];;
      res_status_json 500
        (JObj {[ "error" := JStr "AI service is not configured correctly on the server." ]})
  | Some model =>
      try_catch
        (message ← lift (GetV (req_body req) "message");
         context ← lift (GetV (req_body req) "context");
         if negb (ToBoolean message) || negb (ToBoolean context) then
           res_status_json 400
             (JObj {[ "error" := JStr "Message and context are required." ]})
         else
           fullPrompt ← lift (fullPrompt context message);
           result ← submit model chatParams fullPrompt;
           relay result)
        (fun error =>
           console_error [LStr "Error in /api/askdeck endpoint:";
                          LStr (error_message error); LStr (error_stack error)];;
           res_status_json 500
             (JObj {[ "error" := JStr ("Failed to get response from AI: " +:+ error_message error) ]}))
  end.

Definition listening (port : string + Z) (apiKey : option string)
    (model : option GenerativeModel) : js num unit :=
  console_log [LStr ("AskDeck API backend is listening on port " +:+ PORT_toString port)];;
  match apiKey with
  | Some EmptyString | None =>
      console_log [LStr "WARNING: GOOGLE_API_KEY is missing."]
  | Some (String _ _) =>
      match model with
      | None => console_log [LStr "WARNING: Google AI Model not initialized."]
      | Some _ => console_log [LStr "Backend ready."]
      end
  end.
End Server.
End Earlier.

(** ** A concrete runtime

    Numbers restricted to the safe integers, which JavaScript prints in
    plain decimal, and V8's wording of the destructuring TypeError. *)
Definition safe_int : Type := dsig (fun z : Z => Z.abs z <= 9007199254740991).

Definition v8_destructure_error (k : string) (v : jsval safe_int) : JsError :=
  let msg := "Cannot destructure property '" +:+ k +:+ "' of 'req.body' as it is " +:+
             match v with JNull => "null" | _ => "undefined" end +:+ "." in
  mkError msg ("TypeError: " +:+ msg).

Definition v8_toPrimitive_error (v : jsval safe_int) : JsError :=
  mkError "Cannot convert object to primitive value"
          "TypeError: Cannot convert object to primitive value".

#[global] Instance v8_runtime : JsRuntime safe_int := {|
  num_truthy n := negb (Z.eqb (`n) 0);
  num_toString n := pretty (`n);
  destructure_error := v8_destructure_error;
  toPrimitive_error := v8_toPrimitive_error
|}.

Definition int (z : Z) (ok : Z.abs z <= 9007199254740991) : jsval safe_int :=
  JNum (dexist z ok).

(** ** Vocabulary of the specification *)

Section Vocabulary.
Context {num : Type} `{JsRuntime num}.

(** The request gets past the checks of lines 59 to 62 and its prompt is
    composed, so that the prompt is submitted, and the remote service
    settles the submission with [s]. *)
Definition answers (model : GenerativeModel) (req : Request num)
    (s : Settled) : Prop :=
  exists (message context : jsval num) (prompt : string),
    GetV (req_body req) "message" = inr message /\
    GetV (req_body req) "context" = inr context /\
    ToBoolean message = true /\
    ToBoolean context = true /\
    fullPrompt context message = inr prompt /\
    sendMessage model chatParams prompt = s.

(** The value of the module-level [model] once the startup code has run:
    it stays [undefined] unless the assignment on line 22 is reached. *)
Definition initial_model (run : js num (option GenerativeModel))
    : option GenerativeModel :=
  match snd run with
  | inr (Some model) => Some model
  | inr None | inl _ => None
  end.
End Vocabulary.

(** All candidates of a result, none when [response] or [candidates] is
    missing. *)
Definition result_candidates (result : Result) : list Candidate :=
  default [] (response result ≫= candidates).

(** A candidate with a non-empty parts list. *)
Definition candidate_usable (c : Candidate) : bool :=
  match content c ≫= parts with
  | Some (_ :: _) => true
  | Some [] | None => false
  end.

Definition has_usable_candidate (result : Result) : bool :=
  existsb candidate_usable (result_candidates result).

(** A part that carries a non-empty text. *)
Definition part_nonempty (p : Part) : bool :=
  match text p with
  | Some (String _ _) => true
  | Some EmptyString | None => false
  end.

(** ** Sample data *)

(** A model whose remote end settles every submission the same way. *)
Definition stub (s : Settled) : GenerativeModel :=
  mkModel "gemini-2.0-flash" (fun _ _ => s).

Definition text_candidate (txt : string) : Candidate :=
  mkCandidate (Some (mkContent (Some [mkPart (Some txt)]))).

Definition result_with (cs : list Candidate) (fb : option PromptFeedback) : Result :=
  mkResult (Some (mkResponse (Some cs) fb)).

Definition ask (message context : jsval safe_int) : Request safe_int :=
  mkRequest (JObj (<[ "message" := message ]> {[ "context" := context ]})).

Definition ask_capital : Request safe_int :=
  ask (JStr "What is the capital?") (JStr "France is a country in Europe.").

Definition paris_result : Result := result_with [text_candidate "Paris"] None.

(** The first candidate carries one part, whose text is empty. *)
Definition empty_text_result : Result := result_with [text_candidate ""] None.

(** The first candidate has no content, the second one has a text part. *)
Definition late_candidate_result : Result :=
  result_with [mkCandidate None; text_candidate "Paris"] None.

Definition blocked_result : Result :=
  result_with [] (Some (mkFeedback (Some "SAFETY"))).

Definition malformed_result : Result := result_with [] None.

Definition econnreset : JsError := mkError "ECONNRESET" "Error: ECONNRESET".

(** A body without [message]. *)
Definition ask_without_message : Request safe_int :=
  mkRequest (JObj {[ "context" := JStr "France is a country in Europe." ]}).

(** A client construction that always succeeds, and one that always throws. *)
Definition sdk_ok (key id : string) : JsError + GenerativeModel :=
  inr (mkModel id (fun _ _ => Resolved paris_result)).

Definition sdk_throws (key id : string) : JsError + GenerativeModel :=
  inl (mkError "API key not valid." "Error: API key not valid.").

(** ** The paths of a request *)

Section PathsOfRequest.
Context {num : Type} `{JsRuntime num}.

(** The eight ways a request to POST /api/askdeck can go. *)
Inductive askdeck_path (model : option GenerativeModel) (req : Request num)
    : js num unit -> Prop :=
  | path_disabled :
      model = None ->
      askdeck_path model req
        ([ Console LevelError [LStr "/api/askdeck called, but AI model is not initialized."];
           Send 500 (JObj {[ "error" := JStr "AI service is not configured correctly on the server. Check model ID and API key." ]}) ],
         inr tt)
  | path_thrown (m : GenerativeModel) (e : JsError) :
      model = Some m ->
      GetV (req_body req) "message" = inl e ->
      askdeck_path model req
        ([ Console LevelError [LStr "Error in /api/askdeck endpoint:";
                               LStr (error_message e); LStr (error_stack e)];
           Send 500 (JObj {[ "error" := JStr ("Failed to get response from AI: " +:+ error_message e) ]}) ],
         inr tt)
  | path_invalid (m : GenerativeModel) (message context : jsval num) :
      model = Some m ->
      GetV (req_body req) "message" = inr message ->
      GetV (req_body req) "context" = inr context ->
      ToBoolean message = false \/ ToBoolean context = false ->
      askdeck_path model req
        ([ Send 400 (JObj {[ "error" := JStr "Message and context are required." ]}) ],
         inr tt)
  | path_unprintable (m : GenerativeModel) (message context : jsval num) (e : JsError) :
      model = Some m ->
      GetV (req_body req) "message" = inr message ->
      GetV (req_body req) "context" = inr context ->
      ToBoolean message = true ->
      ToBoolean context = true ->
      fullPrompt context message = inl e ->
      askdeck_path model req
        ([ Console LevelError [LStr "Error in /api/askdeck endpoint:";
                               LStr (error_message e); LStr (error_stack e)];
           Send 500 (JObj {[ "error" := JStr ("Failed to get response from AI: " +:+ error_message e) ]}) ],
         inr tt)
  | path_rejected (m : GenerativeModel) (message context : jsval num)
      (prompt : string) (e : JsError) :
      model = Some m ->
      answers m req (Rejected e) ->
      GetV (req_body req) "message" = inr message ->
      GetV (req_body req) "context" = inr context ->
      fullPrompt context message = inr prompt ->
      askdeck_path model req
        ([ Submit chatParams prompt;
           Console LevelError [LStr "Error in /api/askdeck endpoint:";
                               LStr (error_message e); LStr (error_stack e)];
           Send 500 (JObj {[ "error" := JStr ("Failed to get response from AI: " +:+ error_message e) ]}) ],
         inr tt)
  | path_success (m : GenerativeModel) (message context : jsval num)
      (prompt : string) (result : Result) (p0 : Part) (ps : list Part) :
      model = Some m ->
      answers m req (Resolved result) ->
      GetV (req_body req) "message" = inr message ->
      GetV (req_body req) "context" = inr context ->
      fullPrompt context message = inr prompt ->
      first_candidate_parts result = Some (p0 :: ps) ->
      askdeck_path model req
        ([ Submit chatParams prompt;
           Send 200 (JObj {[ "reply" := part_text p0 ]}) ],
         inr tt)
  | path_blocked (m : GenerativeModel) (message context : jsval num)
      (prompt : string) (result : Result) (reason : string) :
      model = Some m ->
      answers m req (Resolved result) ->
      GetV (req_body req) "message" = inr message ->
      GetV (req_body req) "context" = inr context ->
      fullPrompt context message = inr prompt ->
      first_candidate_parts result = None \/ first_candidate_parts result = Some [] ->
      prompt_blockReason result = Some reason ->
      reason <> "" ->
      askdeck_path model req
        ([ Submit chatParams prompt;
           Console LevelWarn [LStr "AI response blocked. Reason:"; LStr reason;
                              LFeedback (response result ≫= promptFeedback)];
           Send 500 (JObj {[ "error" := JStr ("Response blocked: " +:+ reason) ]}) ],
         inr tt)
  | path_malformed (m : GenerativeModel) (message context : jsval num)
      (prompt : string) (result : Result) :
      model = Some m ->
      answers m req (Resolved result) ->
      GetV (req_body req) "message" = inr message ->
      GetV (req_body req) "context" = inr context ->
      fullPrompt context message = inr prompt ->
      first_candidate_parts result = None \/ first_candidate_parts result = Some [] ->
      prompt_blockReason result = None \/ prompt_blockReason result = Some "" ->
      askdeck_path model req
        ([ Submit chatParams prompt;
           Console LevelError [LStr "No valid candidate response from AI:";
                               LResponse (response result)];
           Send 500 (JObj {[ "error" := JStr "AI did not provide a valid response." ]}) ],
         inr tt).
End PathsOfRequest.

(** ** More sample data *)

(** A body whose [message] is an object rather than a string. *)
Definition ask_object : Request safe_int :=
  ask (JObj {[ "text" := JStr "What is the capital?" ]})
      (JStr "France is a country in Europe.").

(** A body whose [message] is an object with a property [toString] of its
    own, which no conversion to a string survives. *)
Definition ask_unprintable : Request safe_int :=
  ask (JObj {[ "toString" := JStr "x" ]})
      (JStr "France is a country in Europe.").

(** The same request with the text an object is printed as. *)
Definition ask_object_Object : Request safe_int :=
  ask (JStr "[object Object]") (JStr "France is a country in Europe.").

(** ** Properties *)

(** [ask_capital] gets through validation and the stub settles as told. *)
Ltac answers_capital :=
  exists (JStr "What is the capital?"), (JStr "France is a country in Europe.");
  eexists;
  split; [reflexivity | split; [reflexivity | split; [reflexivity |
  split; [reflexivity | split; reflexivity]]]].

Lemma string_app_assoc (a b c : string) : (a +:+ b) +:+ c = a +:+ (b +:+ c).
Proof.
  induction a as [|ch a IH]; [reflexivity |].
  change (String ch ((a +:+ b) +:+ c) = String ch (a +:+ b +:+ c)).
  f_equal. exact IH.
Qed.

Section Properties.
Context {num : Type} `{JsRuntime num}.

(** *** The monad *)

Lemma bind_ret {A B} (a : A) (f : A -> js num B) : mret a ≫= f = f a.
Proof.
  unfold mret, mbind, js_mret, js_mbind, js_ret, js_bind.
  destruct (f a) as [t r]. reflexivity.
Qed.

Lemma bind_lift_inr {A B} (a : A) (f : A -> js num B) : lift (inr a) ≫= f = f a.
Proof. apply bind_ret. Qed.

Lemma bind_lift_inl {A B} (e : JsError) (f : A -> js num B) :
  lift (inl e) ≫= f = throw e.
Proof. reflexivity. Qed.

Lemma bind_emit {B} (ev : event num) (k : js num B) :
  (emit ev;; k) = (ev :: fst k, snd k).
Proof.
  unfold mbind, js_mbind, js_bind, emit. destruct k as [t r]. reflexivity.
Qed.

Lemma try_catch_returns {A} (t : list (event num)) (a : A) h :
  try_catch (t, inr a) h = (t, inr a).
Proof. reflexivity. Qed.

(** *** Values *)

(** The values that count as absent or empty for [!x]. *)
Remark falsy_values :
  ToBoolean (num:=num) JUndefined = false /\
  ToBoolean (num:=num) JNull = false /\
  ToBoolean (num:=num) (JStr "") = false /\
  ToBoolean (num:=num) (JBool false) = false.
Proof. repeat split. Qed.

Remark nonempty_string_truthy (s : string) :
  s <> "" -> ToBoolean (num:=num) (JStr s) = true.
Proof. destruct s; [congruence | reflexivity]. Qed.

Remark ToString_string (s : string) : ToString (num:=num) (JStr s) = inr s.
Proof. reflexivity. Qed.

(** *** The handler, branch by branch *)

Lemma relay_returns (result : Result) : snd (relay (num:=num) result) = inr tt.
Proof.
  unfold relay.
  destruct (first_candidate_parts result) as [[|p0 ps]|];
    try reflexivity;
    destruct (prompt_blockReason result) as [[|c r]|]; reflexivity.
Qed.

Lemma relay_cases (result : Result) :
  exists st body logged,
    relay (num:=num) result = (logged ++ [Send st body], inr tt) /\
    (st = 200 \/ st = 500) /\
    responses logged = [] /\ submissions logged = [].
Proof.
  unfold relay.
  destruct (first_candidate_parts result) as [[|p0 ps]|].
  2: { exists 200, (JObj {[ "reply" := part_text p0 ]}), []. auto. }
  all: destruct (prompt_blockReason result) as [[|c r]|];
    eexists 500, _, [_]; (split; [reflexivity | auto]).
Qed.

Lemma relay_success (result : Result) (p0 : Part) (ps : list Part) :
  first_candidate_parts result = Some (p0 :: ps) ->
  relay (num:=num) result = ([Send 200 (JObj {[ "reply" := part_text p0 ]})], inr tt).
Proof. intros E. unfold relay. rewrite E. reflexivity. Qed.

Lemma relay_blocked (result : Result) (reason : string) :
  first_candidate_parts result = None \/ first_candidate_parts result = Some [] ->
  prompt_blockReason result = Some reason ->
  reason <> "" ->
  relay (num:=num) result
  = ([ Console LevelWarn [LStr "AI response blocked. Reason:"; LStr reason;
                          LFeedback (response result ≫= promptFeedback)];
       Send 500 (JObj {[ "error" := JStr ("Response blocked: " +:+ reason) ]}) ],
     inr tt).
Proof.
  intros E B Hne. unfold relay. rewrite B.
  destruct reason as [|c r]; [congruence |].
  destruct E as [-> | ->]; reflexivity.
Qed.

Lemma relay_malformed (result : Result) :
  first_candidate_parts result = None \/ first_candidate_parts result = Some [] ->
  prompt_blockReason result = None \/ prompt_blockReason result = Some "" ->
  relay (num:=num) result
  = ([ Console LevelError [LStr "No valid candidate response from AI:";
                           LResponse (response result)];
       Send 500 (JObj {[ "error" := JStr "AI did not provide a valid response." ]}) ],
     inr tt).
Proof.
  intros E B. unfold relay.
  destruct E as [-> | ->]; destruct B as [-> | ->]; reflexivity.
Qed.

Lemma askdeck_resolved (model : GenerativeModel) (req : Request num)
    (message context : jsval num) (prompt : string) (result : Result) :
  GetV (req_body req) "message" = inr message ->
  GetV (req_body req) "context" = inr context ->
  ToBoolean message = true ->
  ToBoolean context = true ->
  fullPrompt context message = inr prompt ->
  sendMessage model chatParams prompt = Resolved result ->
  askdeck (Some model) req
  = (Submit chatParams prompt :: trace (relay result), inr tt).
Proof.
  intros Hm Hc Tm Tc Hp Hs.
  unfold askdeck. rewrite Hm, Hc, !bind_lift_inr, Tm, Tc.
  cbn [negb orb]. rewrite Hp, bind_lift_inr. unfold submit. rewrite Hs.
  pose proof (relay_returns result) as Hr.
  cbv beta iota zeta delta
    [mbind js_mbind js_bind emit mret js_mret js_ret try_catch trace app fst].
  destruct (relay result) as [t r]. simpl in Hr. subst r. reflexivity.
Qed.

Lemma askdeck_rejected (model : GenerativeModel) (req : Request num)
    (message context : jsval num) (prompt : string) (error : JsError) :
  GetV (req_body req) "message" = inr message ->
  GetV (req_body req) "context" = inr context ->
  ToBoolean message = true ->
  ToBoolean context = true ->
  fullPrompt context message = inr prompt ->
  sendMessage model chatParams prompt = Rejected error ->
  askdeck (Some model) req
  = ([ Submit chatParams prompt;
       Console LevelError [LStr "Error in /api/askdeck endpoint:";
                           LStr (error_message error); LStr (error_stack error)];
       Send 500 (JObj {[ "error" := JStr ("Failed to get response from AI: " +:+ error_message error) ]}) ],
     inr tt).
Proof.
  intros Hm Hc Tm Tc Hp Hs.
  unfold askdeck. rewrite Hm, Hc, !bind_lift_inr, Tm, Tc.
  cbn [negb orb]. rewrite Hp, bind_lift_inr. unfold submit. rewrite Hs. reflexivity.
Qed.

(** The template literal throws: the [catch] clause answers and nothing is
    submitted. *)
Lemma askdeck_unprintable (model : GenerativeModel) (req : Request num)
    (message context : jsval num) (error : JsError) :
  GetV (req_body req) "message" = inr message ->
  GetV (req_body req) "context" = inr context ->
  ToBoolean message = true ->
  ToBoolean context = true ->
  fullPrompt context message = inl error ->
  askdeck (Some model) req
  = ([ Console LevelError [LStr "Error in /api/askdeck endpoint:";
                           LStr (error_message error); LStr (error_stack error)];
       Send 500 (JObj {[ "error" := JStr ("Failed to get response from AI: " +:+ error_message error) ]}) ],
     inr tt).
Proof.
  intros Hm Hc Tm Tc Hp.
  unfold askdeck. rewrite Hm, Hc, !bind_lift_inr, Tm, Tc.
  cbn [negb orb]. rewrite Hp. reflexivity.
Qed.

Lemma askdeck_invalid (model : GenerativeModel) (req : Request num)
    (message context : jsval num) :
  GetV (req_body req) "message" = inr message ->
  GetV (req_body req) "context" = inr context ->
  ToBoolean message = false \/ ToBoolean context = false ->
  askdeck (Some model) req
  = ([Send 400 (JObj {[ "error" := JStr "Message and context are required." ]})],
     inr tt).
Proof.
  intros Hm Hc Hf.
  unfold askdeck. rewrite Hm, Hc, !bind_lift_inr.
  assert (negb (ToBoolean message) || negb (ToBoolean context) = true) as ->.
  { destruct Hf as [-> | ->]; [reflexivity | apply orb_true_r]. }
  reflexivity.
Qed.

Lemma askdeck_disabled (req : Request num) :
  askdeck None req
  = ([ Console LevelError [LStr "/api/askdeck called, but AI model is not initialized."];
       Send 500 (JObj {[ "error" := JStr "AI service is not configured correctly on the server. Check model ID and API key." ]}) ],
     inr tt).
Proof. reflexivity. Qed.

Lemma GetV_object (props : gmap string (jsval num)) (k : string) :
  GetV (JObj props) k = inr (default JUndefined (props !! k)).
Proof. reflexivity. Qed.

Lemma responses_app (t1 t2 : list (event num)) :
  responses (t1 ++ t2) = responses t1 ++ responses t2.
Proof. unfold responses. apply omap_app. Qed.

Lemma submissions_app (t1 t2 : list (event num)) :
  submissions (t1 ++ t2) = submissions t1 ++ submissions t2.
Proof. unfold submissions. apply omap_app. Qed.

(** Whatever the remote answers, a validated request is submitted once,
    with the composed prompt. *)
Lemma askdeck_submits_once (model : GenerativeModel) (req : Request num)
    (message context : jsval num) (prompt : string) :
  GetV (req_body req) "message" = inr message ->
  GetV (req_body req) "context" = inr context ->
  ToBoolean message = true ->
  ToBoolean context = true ->
  fullPrompt context message = inr prompt ->
  submissions (trace (askdeck (Some model) req))
  = [(chatParams, prompt)].
Proof.
  intros Hm Hc Tm Tc Hp.
  destruct (sendMessage model chatParams prompt) as [result | error] eqn:Hs.
  - rewrite (askdeck_resolved _ _ _ _ _ _ Hm Hc Tm Tc Hp Hs).
    destruct (relay_cases result) as (st & body & logged & -> & _ & _ & Hl).
    unfold trace; cbn [fst].
    change (Submit chatParams prompt :: logged ++ [Send st body])
      with ([Submit (num:=num) chatParams prompt] ++ logged ++ [Send st body]).
    rewrite !submissions_app, Hl. reflexivity.
  - rewrite (askdeck_rejected _ _ _ _ _ _ Hm Hc Tm Tc Hp Hs). reflexivity.
Qed.

(** A validated request is answered once, with status 200 or 500. *)
Lemma askdeck_valid_status (model : GenerativeModel) (req : Request num)
    (message context : jsval num) :
  GetV (req_body req) "message" = inr message ->
  GetV (req_body req) "context" = inr context ->
  ToBoolean message = true ->
  ToBoolean context = true ->
  exists st body,
    responses (trace (askdeck (Some model) req)) = [(st, body)] /\
    (st = 200 \/ st = 500).
Proof.
  intros Hm Hc Tm Tc.
  destruct (fullPrompt context message) as [e | prompt] eqn:Hp.
  { rewrite (askdeck_unprintable _ _ _ _ _ Hm Hc Tm Tc Hp).
    eexists 500, _. split; [reflexivity | auto]. }
  destruct (sendMessage model chatParams prompt) as [result | error] eqn:Hs.
  - rewrite (askdeck_resolved _ _ _ _ _ _ Hm Hc Tm Tc Hp Hs).
    destruct (relay_cases result) as (st & body & logged & -> & Hst & Hl & _).
    exists st, body. split; [| exact Hst].
    unfold trace; cbn [fst].
    change (Submit chatParams prompt :: logged ++ [Send st body])
      with ([Submit (num:=num) chatParams prompt] ++ logged ++ [Send st body]).
    rewrite !responses_app, Hl. reflexivity.
  - rewrite (askdeck_rejected _ _ _ _ _ _ Hm Hc Tm Tc Hp Hs).
    eexists 500, _. split; [reflexivity | auto].
Qed.

(** *** Candidates *)

Lemma first_candidate_parts_spec (result : Result) (ps : list Part) :
  first_candidate_parts result = Some ps <->
  exists r c0 cs ct,
    response result = Some r /\ candidates r = Some (c0 :: cs) /\
    content c0 = Some ct /\ parts ct = Some ps.
Proof.
  unfold first_candidate_parts. split.
  - destruct (response result) as [r|]; [| discriminate]. cbn.
    destruct (candidates r) as [[|c0 cs]|] eqn:E1; [discriminate | | discriminate]. cbn.
    destruct (content c0) as [ct|] eqn:E2; [| discriminate]. cbn.
    intros E3. exists r, c0, cs, ct. auto.
  - intros (r & c0 & cs & ct & -> & E1 & E2 & E3). cbn.
    rewrite E1. cbn. rewrite E2. cbn. exact E3.
Qed.

Lemma no_usable_first (result : Result) :
  has_usable_candidate result = false ->
  first_candidate_parts result = None \/ first_candidate_parts result = Some [].
Proof.
  unfold has_usable_candidate, result_candidates, first_candidate_parts.
  destruct (response result) as [r|]; [| auto]. cbn.
  destruct (candidates r) as [[|c0 cs]|]; [auto | | auto]. cbn.
  intros E. apply orb_false_iff in E as [E _]. revert E.
  unfold candidate_usable.
  destruct (content c0) as [ct|]; [| auto]. cbn.
  destruct (parts ct) as [[|p0 ps]|]; [auto | discriminate | auto].
Qed.

(** *** Startup *)

Lemma startup_without_key (apiKey : option string)
    (getGenerativeModel : string -> string -> JsError + GenerativeModel) :
  apiKey = None \/ apiKey = Some "" ->
  initial_model (startup (num:=num) apiKey getGenerativeModel) = None.
Proof. intros [-> | ->]; reflexivity. Qed.

Lemma startup_construction_fails (key : string) (e : JsError)
    (getGenerativeModel : string -> string -> JsError + GenerativeModel) :
  getGenerativeModel key MODEL_ID = inl e ->
  initial_model (startup (num:=num) (Some key) getGenerativeModel) = None.
Proof.
  intros E. destruct key as [|c key]; [reflexivity |].
  unfold startup. rewrite E. reflexivity.
Qed.

Lemma startup_enabled (c : ascii) (key : string) (model : GenerativeModel)
    (getGenerativeModel : string -> string -> JsError + GenerativeModel) :
  getGenerativeModel (String c key) MODEL_ID = inr model ->
  initial_model (startup (num:=num) (Some (String c key)) getGenerativeModel) = Some model.
Proof. intros E. unfold startup. rewrite E. reflexivity. Qed.

(** *** The claims *)

(** C1 (amended).  The handler looks at the first candidate only and does
    not look at the text it relays.  When the first candidate of a resolved
    result has a non-empty parts list, the response is 200 with body
    [{ reply: <text of the first part> }], whatever that text is; for
    every other result (no response, no or an empty candidate list, a
    first candidate without content or with no parts) the response is a
    500 with an error body. *)
Theorem first_candidate_decides (model : GenerativeModel) (req : Request num)
    (result : Result) :
  answers model req (Resolved result) ->
  match first_candidate_parts result with
  | Some (p0 :: _) =>
      responses (trace (askdeck (Some model) req))
      = [(200, JObj {[ "reply" := part_text p0 ]})]
  | Some [] | None =>
      exists msg : string,
        responses (trace (askdeck (Some model) req))
        = [(500, JObj {[ "error" := JStr msg ]})]
  end.
Proof.
  intros (message & context & prompt & Hm & Hc & Tm & Tc & Hp & Hs).
  rewrite (askdeck_resolved _ _ _ _ _ _ Hm Hc Tm Tc Hp Hs).
  unfold relay, trace.
  destruct (first_candidate_parts result) as [[|p0 ps]|];
    [ | reflexivity | ];
    destruct (prompt_blockReason result) as [[|c r]|];
    eexists; reflexivity.
Qed.

(** C2.  For non-empty strings [context] and [message] the composition of
    the prompt does not fail and the prompt is [context +
    "\n\n---\n\nUser Question: " + message + "\n\nAskDeck Response:"],
    where [\n] is the line feed, character 10: it starts with the context,
    ends with the question followed by the marker, and it is the prompt the
    handler submits for a body holding these two strings. *)
Theorem fullPrompt_shape (context message : string) :
  context <> "" ->
  message <> "" ->
  LF = String (ascii_of_nat 10) EmptyString
  /\ fullPrompt (num:=num) (JStr context) (JStr message)
     = inr (context +:+ (LF +:+ LF +:+ "---" +:+ LF +:+ LF +:+ "User Question: ")
              +:+ message +:+ (LF +:+ LF +:+ "AskDeck Response:"))
  /\ (exists rest : string,
        fullPrompt (num:=num) (JStr context) (JStr message) = inr (context +:+ rest))
  /\ (exists front : string,
        fullPrompt (num:=num) (JStr context) (JStr message)
        = inr (front +:+ ("User Question: " +:+ message +:+ LF +:+ LF +:+ "AskDeck Response:")))
  /\ (forall (model : GenerativeModel) (props : gmap string (jsval num)),
        props !! "context" = Some (JStr context) ->
        props !! "message" = Some (JStr message) ->
        submissions (trace (askdeck (Some model) (mkRequest (JObj props))))
        = [(chatParams,
            context +:+ (LF +:+ LF +:+ "---" +:+ LF +:+ LF +:+ "User Question: ")
              +:+ message +:+ (LF +:+ LF +:+ "AskDeck Response:"))]).
Proof.
  intros Hc Hm. split; [| split; [| split; [| split]]].
  - reflexivity.
  - reflexivity.
  - eexists. reflexivity.
  - exists (context +:+ LF +:+ LF +:+ "---" +:+ LF +:+ LF).
    rewrite string_app_assoc. reflexivity.
  - intros model props Pc Pm.
    apply (askdeck_submits_once model (mkRequest (JObj props))
             (JStr message) (JStr context)).
    + cbn. rewrite Pm. reflexivity.
    + cbn. rewrite Pc. reflexivity.
    + destruct message; [congruence | reflexivity].
    + destruct context; [congruence | reflexivity].
    + reflexivity.
Qed.

(** C3.  A resolved result in which no candidate has a non-empty parts
    list and whose prompt feedback carries a block reason is answered 500
    with body [{ error: "Response blocked: " + reason }].  The code tests
    the reason for truthiness, so a reason is a non-empty string. *)
Theorem blocked_response (model : GenerativeModel) (req : Request num)
    (result : Result) (reason : string) :
  answers model req (Resolved result) ->
  has_usable_candidate result = false ->
  prompt_blockReason result = Some reason ->
  reason <> "" ->
  responses (trace (askdeck (Some model) req))
  = [(500, JObj {[ "error" := JStr ("Response blocked: " +:+ reason) ]})].
Proof.
  intros (message & context & prompt & Hm & Hc & Tm & Tc & Hp & Hs) Hu Hb Hne.
  rewrite (askdeck_resolved _ _ _ _ _ _ Hm Hc Tm Tc Hp Hs).
  rewrite (relay_blocked result reason (no_usable_first _ Hu) Hb Hne).
  reflexivity.
Qed.

(** An empty block reason is falsy and is handled like a missing one. *)
Remark empty_blockReason_is_malformed (model : GenerativeModel)
    (req : Request num) (result : Result) :
  answers model req (Resolved result) ->
  has_usable_candidate result = false ->
  prompt_blockReason result = Some "" ->
  responses (trace (askdeck (Some model) req))
  = [(500, JObj {[ "error" := JStr "AI did not provide a valid response." ]})].
Proof.
  intros (message & context & prompt & Hm & Hc & Tm & Tc & Hp & Hs) Hu Hb.
  rewrite (askdeck_resolved _ _ _ _ _ _ Hm Hc Tm Tc Hp Hs).
  rewrite (relay_malformed result (no_usable_first _ Hu) (or_intror Hb)).
  reflexivity.
Qed.

(** C4.  When the submission of a request rejects with an error of
    message [m], the response is 500 with body
    [{ error: "Failed to get response from AI: " + m }], and the remote
    service has been contacted exactly once for the request. *)
Theorem transport_error_response (model : GenerativeModel) (req : Request num)
    (error : JsError) :
  answers model req (Rejected error) ->
  responses (trace (askdeck (Some model) req))
  = [(500, JObj {[ "error" := JStr ("Failed to get response from AI: " +:+ error_message error) ]})]
  /\ length (submissions (trace (askdeck (Some model) req))) = 1%nat.
Proof.
  intros (message & context & prompt & Hm & Hc & Tm & Tc & Hp & Hs).
  rewrite (askdeck_rejected _ _ _ _ _ _ Hm Hc Tm Tc Hp Hs).
  split; reflexivity.
Qed.

(** C5.  When the API key is absent (or empty) at startup, or the
    construction of the client throws, [model] stays undefined, and then
    every POST /api/askdeck request is answered 500 with the
    configuration error and nothing is submitted to the remote service. *)
Theorem disabled_gateway (apiKey : option string)
    (getGenerativeModel : string -> string -> JsError + GenerativeModel)
    (req : Request num) :
  (apiKey = None \/ apiKey = Some "" \/
   exists key e, apiKey = Some key /\ getGenerativeModel key MODEL_ID = inl e) ->
  initial_model (startup (num:=num) apiKey getGenerativeModel) = None
  /\ responses (trace (app (initial_model (startup (num:=num) apiKey getGenerativeModel))
                         POST_api_askdeck req))
     = [(500, JObj {[ "error" := JStr "AI service is not configured correctly on the server. Check model ID and API key." ]})]
  /\ submissions (trace (app (initial_model (startup (num:=num) apiKey getGenerativeModel))
                           POST_api_askdeck req))
     = [].
Proof.
  intros Hd.
  assert (initial_model (startup (num:=num) apiKey getGenerativeModel) = None) as ->.
  { destruct Hd as [-> | [-> | (key & e & -> & E)]];
      [ apply startup_without_key; auto
      | apply startup_without_key; auto
      | exact (startup_construction_fails key e _ E) ]. }
  repeat split.
Qed.

(** C6.  A resolved result in which no candidate has a non-empty parts
    list and which carries no block reason is answered 500 with body
    [{ error: "AI did not provide a valid response." }], and the raw
    response is written to the error console. *)
Theorem malformed_response (model : GenerativeModel) (req : Request num)
    (result : Result) :
  answers model req (Resolved result) ->
  has_usable_candidate result = false ->
  prompt_blockReason result = None ->
  responses (trace (askdeck (Some model) req))
  = [(500, JObj {[ "error" := JStr "AI did not provide a valid response." ]})]
  /\ console_output (trace (askdeck (Some model) req))
     = [(LevelError, [LStr "No valid candidate response from AI:";
                      LResponse (response result)])].
Proof.
  intros (message & context & prompt & Hm & Hc & Tm & Tc & Hp & Hs) Hu Hb.
  rewrite (askdeck_resolved _ _ _ _ _ _ Hm Hc Tm Tc Hp Hs).
  rewrite (relay_malformed result (no_usable_first _ Hu) (or_introl Hb)).
  split; reflexivity.
Qed.

(** C7.  With the gateway enabled, a body in which [message] is absent or
    an empty value (any falsy value: [undefined], [null], the empty
    string, ...) is answered 400 with body
    [{ error: "Message and context are required." }] whatever [context]
    is, and symmetrically for [context]; nothing is submitted to the
    remote service. *)
Theorem missing_field_rejected (model : GenerativeModel)
    (props : gmap string (jsval num)) :
  ToBoolean (default JUndefined (props !! "message")) = false \/
  ToBoolean (default JUndefined (props !! "context")) = false ->
  responses (trace (askdeck (Some model) (mkRequest (JObj props))))
  = [(400, JObj {[ "error" := JStr "Message and context are required." ]})]
  /\ submissions (trace (askdeck (Some model) (mkRequest (JObj props)))) = [].
Proof.
  intros Hf.
  rewrite (askdeck_invalid model (mkRequest (JObj props)) _ _
             (GetV_object props "message") (GetV_object props "context") Hf).
  split; reflexivity.
Qed.

(** C8 (amended).  The validation tests the truthiness of [message] and
    [context], so it rejects emptiness as well as absence: the empty string
    is falsy, and a body in which one of the two fields is falsy is answered
    400 without composing a prompt or submitting anything; a body passes
    the validation (is not answered 400) exactly when both fields are
    truthy. *)
Theorem validation_tests_truthiness (model : GenerativeModel)
    (props : gmap string (jsval num)) :
  ToBoolean (num:=num) (JStr "") = false
  /\ (ToBoolean (default JUndefined (props !! "message")) = false \/
      ToBoolean (default JUndefined (props !! "context")) = false ->
      responses (trace (askdeck (Some model) (mkRequest (JObj props))))
      = [(400, JObj {[ "error" := JStr "Message and context are required." ]})]
      /\ submissions (trace (askdeck (Some model) (mkRequest (JObj props)))) = [])
  /\ (ToBoolean (default JUndefined (props !! "message")) = true /\
      ToBoolean (default JUndefined (props !! "context")) = true ->
      forall body,
        (400, body) ∉ responses (trace (askdeck (Some model) (mkRequest (JObj props))))).
Proof.
  split; [reflexivity | split].
  - intros Hf.
    rewrite (askdeck_invalid model (mkRequest (JObj props)) _ _
               (GetV_object props "message") (GetV_object props "context") Hf).
    split; reflexivity.
  - intros [Tm Tc] body Hin.
    destruct (askdeck_valid_status model (mkRequest (JObj props)) _ _
                (GetV_object props "message") (GetV_object props "context") Tm Tc)
      as (st & b & E & Hst).
    rewrite E in Hin. apply list_elem_of_singleton in Hin.
    injection Hin as <- _. destruct Hst; discriminate.
Qed.

(** C9.  GET /api/health is answered 200 with the fixed body
    [{ status: "ok", message: "AskDeck API backend is running on Render." }]
    whatever the state of the gateway, and without contacting the remote
    service. *)
Theorem health_always_ok (model : option GenerativeModel) (req : Request num) :
  responses (trace (app model GET_api_health req))
  = [(200, JObj (<[ "status" := JStr "ok" ]>
                 {[ "message" := JStr "AskDeck API backend is running on Render." ]}))]
  /\ (<[ "status" := JStr "ok" ]>
      {[ "message" := JStr "AskDeck API backend is running on Render." ]}
        : gmap string (jsval num)) !! "status" = Some (JStr "ok")
  /\ submissions (trace (app model GET_api_health req)) = [].
Proof. repeat split. Qed.

(** C10.  The test of [model] comes before the validation of the body:
    with the gateway disabled every request to POST /api/askdeck, whatever
    its body, is answered 500 with the configuration error; a 400 is only
    ever sent by an enabled gateway. *)
Theorem disabled_check_first (req : Request num) :
  responses (trace (askdeck None req))
  = [(500, JObj {[ "error" := JStr "AI service is not configured correctly on the server. Check model ID and API key." ]})]
  /\ (forall (model : option GenerativeModel) (body : jsval num),
        (400, body) ∈ responses (trace (askdeck model req)) ->
        is_Some model).
Proof.
  split; [reflexivity |].
  intros model body Hin. destruct model as [m|]; [eauto |].
  rewrite askdeck_disabled in Hin. cbn in Hin.
  apply list_elem_of_singleton in Hin. discriminate.
Qed.

(** A body that is [undefined] or [null] makes the destructuring throw
    inside the [try]: the request is answered by the [catch] clause and
    nothing is submitted. *)
Remark nullish_body_is_caught (model : GenerativeModel) (req : Request num) :
  req_body req = JUndefined \/ req_body req = JNull ->
  responses (trace (askdeck (Some model) req))
  = [(500, JObj {[ "error" := JStr ("Failed to get response from AI: " +:+
                     error_message (destructure_error "message" (req_body req))) ]})]
  /\ submissions (trace (askdeck (Some model) req)) = [].
Proof.
  intros E. unfold askdeck.
  assert (GetV (req_body req) "message"
          = inl (destructure_error "message" (req_body req))) as ->
    by (destruct E as [-> | ->]; reflexivity).
  split; reflexivity.
Qed.
End Properties.

(** ** The claims on concrete requests *)

(** C1, as stated, fails twice.  A first candidate whose only part has an
    empty text is a success, relayed as an empty reply, not the generic
    error; and a result whose usable candidate is not the first one is
    answered with the generic error, not with a reply. *)
Lemma empty_text_is_relayed_late_candidate_is_not :
  (responses (trace (askdeck (Some (stub (Resolved empty_text_result))) ask_capital))
   = [(200, JObj {[ "reply" := JStr "" ]})]
   /\ responses (trace (askdeck (Some (stub (Resolved empty_text_result))) ask_capital))
      <> [(500, JObj {[ "error" := JStr "AI did not provide a valid response." ]})])
  /\ (has_usable_candidate late_candidate_result = true
      /\ responses (trace (askdeck (Some (stub (Resolved late_candidate_result))) ask_capital))
         = [(500, JObj {[ "error" := JStr "AI did not provide a valid response." ]})]).
Proof.
  assert (responses (trace (askdeck (Some (stub (Resolved empty_text_result))) ask_capital))
          = [(200, JObj {[ "reply" := JStr "" ]})]) as E by reflexivity.
  split; [split; [exact E | rewrite E; discriminate] | split; reflexivity].
Qed.

Lemma first_candidate_decides_paris :
  responses (trace (askdeck (Some (stub (Resolved paris_result))) ask_capital))
  = [(200, JObj {[ "reply" := JStr "Paris" ]})].
Proof.
  apply (first_candidate_decides (stub (Resolved paris_result)) ask_capital paris_result).
  answers_capital.
Defined.

Lemma fullPrompt_shape_capital :
  fullPrompt (JStr "France is a country in Europe.") (JStr "What is the capital?")
  = inr ("France is a country in Europe." +:+
         String (ascii_of_nat 10) (String (ascii_of_nat 10) ("---" +:+
         String (ascii_of_nat 10) (String (ascii_of_nat 10) (
         "User Question: What is the capital?" +:+
         String (ascii_of_nat 10) (String (ascii_of_nat 10) "AskDeck Response:"))))))
  /\ submissions (trace (askdeck (Some (stub (Resolved paris_result))) ask_capital))
     = [(chatParams,
         "France is a country in Europe." +:+
         String (ascii_of_nat 10) (String (ascii_of_nat 10) ("---" +:+
         String (ascii_of_nat 10) (String (ascii_of_nat 10) (
         "User Question: What is the capital?" +:+
         String (ascii_of_nat 10) (String (ascii_of_nat 10) "AskDeck Response:"))))))].
Proof.
  destruct (fullPrompt_shape (num:=safe_int)
              "France is a country in Europe." "What is the capital?")
    as (_ & E & _ & _ & S); [discriminate | discriminate |].
  split; [exact E | apply S; reflexivity].
Defined.

Lemma blocked_response_SAFETY :
  responses (trace (askdeck (Some (stub (Resolved blocked_result))) ask_capital))
  = [(500, JObj {[ "error" := JStr "Response blocked: SAFETY" ]})].
Proof.
  apply (blocked_response (stub (Resolved blocked_result)) ask_capital
           blocked_result "SAFETY");
    [answers_capital | reflexivity | reflexivity | discriminate].
Defined.

Lemma transport_error_ECONNRESET :
  responses (trace (askdeck (Some (stub (Rejected econnreset))) ask_capital))
  = [(500, JObj {[ "error" := JStr "Failed to get response from AI: ECONNRESET" ]})]
  /\ length (submissions (trace (askdeck (Some (stub (Rejected econnreset))) ask_capital))) = 1%nat.
Proof.
  apply (transport_error_response (stub (Rejected econnreset)) ask_capital econnreset).
  answers_capital.
Defined.

Lemma disabled_gateway_no_key_or_bad_key :
  (initial_model (startup (num:=safe_int) None sdk_ok) = None
   /\ responses (trace (app (initial_model (startup (num:=safe_int) None sdk_ok))
                          POST_api_askdeck ask_capital))
      = [(500, JObj {[ "error" := JStr "AI service is not configured correctly on the server. Check model ID and API key." ]})]
   /\ submissions (trace (app (initial_model (startup (num:=safe_int) None sdk_ok))
                            POST_api_askdeck ask_capital))
      = [])
  /\ (initial_model (startup (num:=safe_int) (Some "not-a-key") sdk_throws) = None
      /\ responses (trace (app (initial_model (startup (num:=safe_int) (Some "not-a-key") sdk_throws))
                             POST_api_askdeck ask_capital))
         = [(500, JObj {[ "error" := JStr "AI service is not configured correctly on the server. Check model ID and API key." ]})]
      /\ submissions (trace (app (initial_model (startup (num:=safe_int) (Some "not-a-key") sdk_throws))
                               POST_api_askdeck ask_capital))
         = []).
Proof.
  split.
  - apply (disabled_gateway (num:=safe_int) None sdk_ok ask_capital).
    left. reflexivity.
  - apply (disabled_gateway (num:=safe_int) (Some "not-a-key") sdk_throws ask_capital).
    right. right. exists "not-a-key", (mkError "API key not valid." "Error: API key not valid.").
    split; reflexivity.
Defined.

Lemma malformed_response_empty_candidates :
  responses (trace (askdeck (Some (stub (Resolved malformed_result))) ask_capital))
  = [(500, JObj {[ "error" := JStr "AI did not provide a valid response." ]})]
  /\ console_output (trace (askdeck (Some (stub (Resolved malformed_result))) ask_capital))
     = [(LevelError, [LStr "No valid candidate response from AI:";
                      LResponse (response malformed_result)])].
Proof.
  apply (malformed_response (stub (Resolved malformed_result)) ask_capital malformed_result);
    [answers_capital | reflexivity | reflexivity].
Defined.

Lemma missing_message_rejected :
  responses (trace (askdeck (Some (stub (Resolved paris_result))) ask_without_message))
  = [(400, JObj {[ "error" := JStr "Message and context are required." ]})]
  /\ submissions (trace (askdeck (Some (stub (Resolved paris_result))) ask_without_message)) = [].
Proof.
  apply (missing_field_rejected (num:=safe_int) (stub (Resolved paris_result))
           {[ "context" := JStr "France is a country in Europe." ]}).
  left. reflexivity.
Defined.

(** C8, as stated, fails: with both fields present and [message] the empty
    string, the request is rejected with 400 and nothing reaches the
    gateway. *)
Lemma empty_message_is_rejected :
  responses (trace (askdeck (Some (stub (Resolved paris_result)))
                            (ask (JStr "") (JStr "France is a country in Europe."))))
  = [(400, JObj {[ "error" := JStr "Message and context are required." ]})]
  /\ submissions (trace (askdeck (Some (stub (Resolved paris_result)))
                                 (ask (JStr "") (JStr "France is a country in Europe."))))
     = [].
Proof. split; reflexivity. Qed.

Lemma validation_passes_capital :
  (responses (trace (askdeck (Some (stub (Resolved paris_result)))
                             (ask (JStr "") (JStr "France is a country in Europe."))))
   = [(400, JObj {[ "error" := JStr "Message and context are required." ]})]
   /\ submissions (trace (askdeck (Some (stub (Resolved paris_result)))
                                  (ask (JStr "") (JStr "France is a country in Europe."))))
      = [])
  /\ forall body,
       (400, body) ∉ responses (trace (askdeck (Some (stub (Resolved paris_result))) ask_capital)).
Proof.
  split.
  - destruct (validation_tests_truthiness (num:=safe_int) (stub (Resolved paris_result))
                (<[ "message" := JStr "" ]>
                 {[ "context" := JStr "France is a country in Europe." ]}))
      as (_ & P & _).
    apply P. left. reflexivity.
  - destruct (validation_tests_truthiness (num:=safe_int) (stub (Resolved paris_result))
                (<[ "message" := JStr "What is the capital?" ]>
                 {[ "context" := JStr "France is a country in Europe." ]}))
      as (_ & _ & P).
    apply P. split; reflexivity.
Defined.

Lemma bad_request_needs_enabled_gateway :
  (400, JObj {[ "error" := JStr "Message and context are required." ]})
    ∈ responses (trace (askdeck (Some (stub (Resolved paris_result))) ask_without_message))
  /\ is_Some (Some (stub (Resolved paris_result))).
Proof.
  assert ((400, JObj {[ "error" := JStr "Message and context are required." ]})
            ∈ responses (trace (askdeck (Some (stub (Resolved paris_result)))
                                        ask_without_message))) as Hin
    by (apply list_elem_of_singleton; reflexivity).
  split; [exact Hin |].
  exact (proj2 (disabled_check_first ask_without_message) _ _ Hin).
Defined.

(** ** Further checks on the concrete runtime *)

Example ToString_array :
  ToString (JArr [int (-5) ltac:(lia); JNull; JStr "a"; JArr [JBool true; JObj ∅]])
  = inr "-5,,a,true,[object Object]".
Proof. reflexivity. Qed.

Example ToString_own_toString :
  ToString (JObj {[ "toString" := JStr "x" ]} : jsval safe_int)
  = inl (mkError "Cannot convert object to primitive value"
                 "TypeError: Cannot convert object to primitive value")
  /\ ToString (JArr [JStr "a"; JObj {[ "toString" := JStr "x" ]}] : jsval safe_int)
     = inl (mkError "Cannot convert object to primitive value"
                    "TypeError: Cannot convert object to primitive value").
Proof. split; reflexivity. Qed.

Example unprintable_message_is_caught :
  responses (trace (askdeck (Some (stub (Resolved paris_result))) ask_unprintable))
  = [(500, JObj {[ "error" := JStr "Failed to get response from AI: Cannot convert object to primitive value" ]})]
  /\ submissions (trace (askdeck (Some (stub (Resolved paris_result))) ask_unprintable)) = [].
Proof. split; reflexivity. Qed.

Example zero_message_rejected :
  responses (trace (askdeck (Some (stub (Resolved paris_result)))
                            (ask (int 0 ltac:(lia)) (JStr "France is a country in Europe."))))
  = [(400, JObj {[ "error" := JStr "Message and context are required." ]})].
Proof. reflexivity. Qed.

Example array_body_rejected :
  responses (trace (askdeck (Some (stub (Resolved paris_result)))
                            (mkRequest (JArr [JStr "What is the capital?"]))))
  = [(400, JObj {[ "error" := JStr "Message and context are required." ]})].
Proof. reflexivity. Qed.

Example startup_with_key :
  initial_model (startup (num:=safe_int) (Some "a-key") sdk_ok)
  = Some (mkModel "gemini-2.0-flash" (fun _ _ => Resolved paris_result)).
Proof. reflexivity. Qed.

(** ** Beyond the claims: every path of the handler *)

Lemma string_length_app (a b : string) :
  String.length (a +:+ b) = (String.length a + String.length b)%nat.
Proof.
  induction a as [|ch a IH]; [reflexivity |].
  change (S (String.length (a +:+ b)) = S (String.length a + String.length b)).
  f_equal. exact IH.
Qed.

Lemma string_app_inj_l (a x y : string) : a +:+ x = a +:+ y -> x = y.
Proof.
  induction a as [|ch a IH]; [exact (fun E => E) |].
  intros E. apply IH.
  change (String ch (a +:+ x) = String ch (a +:+ y)) in E.
  congruence.
Qed.

Lemma string_app_inj_r (b x y : string) : x +:+ b = y +:+ b -> x = y.
Proof.
  revert y. induction x as [|cx x IH]; intros [|cy y] E.
  - reflexivity.
  - exfalso. apply (f_equal String.length) in E.
    change (String.length b = S (String.length (y +:+ b))) in E.
    rewrite string_length_app in E. lia.
  - exfalso. apply (f_equal String.length) in E.
    change (S (String.length (x +:+ b)) = String.length b) in E.
    rewrite string_length_app in E. lia.
  - change (String cx (x +:+ b) = String cy (y +:+ b)) in E.
    injection E as -> E. f_equal. apply IH. exact E.
Qed.

Section Paths.
Context {num : Type} `{JsRuntime num}.

(** A body either has no properties to read, and every read throws, or
    every read returns. *)
Lemma GetV_cases (o : jsval num) :
  ((o = JUndefined \/ o = JNull) /\
   forall k, GetV o k = inl (destructure_error k o))
  \/ (o <> JUndefined /\ o <> JNull /\
      exists f : string -> jsval num, forall k, GetV o k = inr (f k)).
Proof.
  destruct o as [| |b|n|s|l|props];
    try (left; split; [auto | reflexivity]);
    right; (split; [discriminate | split; [discriminate |]]).
  - exists (fun _ => JUndefined). reflexivity.
  - exists (fun _ => JUndefined). reflexivity.
  - exists (fun _ => JUndefined). reflexivity.
  - exists (fun _ => JUndefined). reflexivity.
  - exists (fun k => default JUndefined (props !! k)). reflexivity.
Qed.

Lemma askdeck_throwing_body (model : GenerativeModel) (req : Request num)
    (e : JsError) :
  GetV (req_body req) "message" = inl e ->
  askdeck (Some model) req
  = ([ Console LevelError [LStr "Error in /api/askdeck endpoint:";
                           LStr (error_message e); LStr (error_stack e)];
       Send 500 (JObj {[ "error" := JStr ("Failed to get response from AI: " +:+ error_message e) ]}) ],
     inr tt).
Proof. intros E. unfold askdeck. rewrite E. reflexivity. Qed.

Lemma askdeck_takes_a_path (model : option GenerativeModel) (req : Request num) :
  askdeck_path model req (askdeck model req).
Proof.
  destruct model as [m|]; [| rewrite askdeck_disabled; constructor; reflexivity].
  destruct (GetV_cases (req_body req)) as [[_ Hthrow] | (_ & _ & f & Hf)].
  - rewrite (askdeck_throwing_body m req _ (Hthrow "message")).
    eapply path_thrown; [reflexivity | apply Hthrow].
  - pose proof (Hf "message") as Hm. pose proof (Hf "context") as Hc.
    destruct (ToBoolean (f "message")) eqn:Tm;
      [destruct (ToBoolean (f "context")) eqn:Tc |].
    + destruct (fullPrompt (f "context") (f "message")) as [e | prompt] eqn:Hp.
      { rewrite (askdeck_unprintable _ _ _ _ _ Hm Hc Tm Tc Hp).
        eapply path_unprintable; eauto. }
      destruct (sendMessage m chatParams prompt) as [result | e] eqn:Hs.
      * assert (answers m req (Resolved result)) as Ha
          by (exists (f "message"), (f "context"), prompt; auto 10).
        rewrite (askdeck_resolved _ _ _ _ _ _ Hm Hc Tm Tc Hp Hs).
        destruct (first_candidate_parts result) as [[|p0 ps]|] eqn:Hfc.
        2: { rewrite (relay_success result p0 ps Hfc).
             eapply path_success; eauto. }
        all: destruct (prompt_blockReason result) as [[|c r]|] eqn:Hb.
        all: try (rewrite (relay_malformed result); [| auto | auto];
                  eapply path_malformed; eauto).
        all: rewrite (relay_blocked result (String c r)); [| auto | auto | discriminate];
             eapply path_blocked; eauto; discriminate.
      * assert (answers m req (Rejected e)) as Ha
          by (exists (f "message"), (f "context"), prompt; auto 10).
        rewrite (askdeck_rejected _ _ _ _ _ _ Hm Hc Tm Tc Hp Hs).
        eapply path_rejected; eauto.
    + rewrite (askdeck_invalid m req _ _ Hm Hc (or_intror Tc)).
      eapply path_invalid; eauto.
    + rewrite (askdeck_invalid m req _ _ Hm Hc (or_introl Tm)).
      eapply path_invalid; eauto.
Qed.
End Paths.

(** ** Beyond the claims: invariants of the handlers *)

Section Invariants.
Context {num : Type} `{JsRuntime num}.

(** X1.  Whatever the route, the state of the gateway, the body and the
    behaviour of the remote service, a request is answered exactly once,
    with status 200, 400 or 500, and the handler returns normally: no
    exception escapes it. *)
Theorem app_answers_exactly_once (model : option GenerativeModel)
    (route : Route) (req : Request num) :
  snd (app model route req) = inr tt
  /\ exists (st : Z) (body : jsval num),
       responses (trace (app model route req)) = [(st, body)]
       /\ (st = 200 \/ st = 400 \/ st = 500).
Proof.
  destruct route; unfold app.
  - destruct (askdeck_takes_a_path model req);
      (split; [reflexivity | eexists _, _; split; [reflexivity | auto]]).
  - split; [reflexivity | eexists _, _; split; [reflexivity | auto]].
Qed.

(** X2.  A response of POST /api/askdeck has one of two shapes: status 200
    with a body whose only property is [reply], or status 400 or 500 with a
    body whose only property is [error], a string. *)
Theorem askdeck_body_shape (model : option GenerativeModel) (req : Request num)
    (st : Z) (body : jsval num) :
  (st, body) ∈ responses (trace (askdeck model req)) ->
  (st = 200 /\ exists v : jsval num, body = JObj {[ "reply" := v ]})
  \/ ((st = 400 \/ st = 500) /\
      exists msg : string, body = JObj {[ "error" := JStr msg ]}).
Proof.
  intros Hin.
  destruct (askdeck_takes_a_path model req);
    apply list_elem_of_singleton in Hin; injection Hin as -> ->;
    solve [ left; split; [reflexivity | eexists; reflexivity]
          | right; split; [auto | eexists; reflexivity] ].
Qed.

(** X3.  A request leads to at most one submission to the remote service,
    always a fresh single-turn chat with the fixed settings; and a 200 is
    never sent without exactly one submission having been made. *)
Theorem askdeck_submission_discipline (model : option GenerativeModel)
    (req : Request num) :
  (length (submissions (trace (askdeck model req))) <= 1)%nat
  /\ Forall (fun s => s.1 = chatParams /\ chat_history s.1 = [])
            (submissions (trace (askdeck model req)))
  /\ (forall body, (200, body) ∈ responses (trace (askdeck model req)) ->
        length (submissions (trace (askdeck model req))) = 1%nat).
Proof.
  destruct (askdeck_takes_a_path model req);
    (split; [cbn; lia | split]);
    try (apply Forall_nil_2);
    try (apply Forall_singleton; split; reflexivity);
    intros body Hin; try reflexivity;
    apply list_elem_of_singleton in Hin; discriminate.
Qed.

(** X4.  With the gateway enabled, a body that is neither an object nor
    [undefined] or [null] (a boolean, a number, a string, an array) has no
    [message] and no [context]: it is answered 400 and nothing is
    submitted. *)
Theorem non_object_body_rejected (model : GenerativeModel) (req : Request num) :
  req_body req <> JUndefined ->
  req_body req <> JNull ->
  (forall props, req_body req <> JObj props) ->
  responses (trace (askdeck (Some model) req))
  = [(400, JObj {[ "error" := JStr "Message and context are required." ]})]
  /\ submissions (trace (askdeck (Some model) req)) = [].
Proof.
  intros Hu Hn Ho.
  assert (GetV (req_body req) "message" = inr JUndefined /\
          GetV (req_body req) "context" = inr JUndefined) as [Hm Hc].
  { destruct (req_body req) as [| |b|n|s|l|props];
      try congruence; try (split; reflexivity). }
  rewrite (askdeck_invalid model req _ _ Hm Hc (or_introl eq_refl)).
  split; reflexivity.
Qed.

(** X5.  The console calls that the handler of POST /api/askdeck makes
    itself (what the SDK may write while the message is sent is not part of
    the trace): exactly one when it answers 500, none when it answers 200
    or 400. *)
Theorem askdeck_console_discipline (model : option GenerativeModel)
    (req : Request num) (st : Z) (body : jsval num) :
  (st, body) ∈ responses (trace (askdeck model req)) ->
  length (console_output (trace (askdeck model req)))
  = if bool_decide (st = 500) then 1%nat else 0%nat.
Proof.
  intros Hin.
  destruct (askdeck_takes_a_path model req);
    apply list_elem_of_singleton in Hin; injection Hin as -> ->;
    reflexivity.
Qed.

(** X6.  The validation looks at truthiness only and the prompt is built
    with ToString, so two bodies whose fields are truthy and convert alike
    (to the same string, or by throwing the same error) are
    indistinguishable: the whole run of the handler is the same.  An object
    without a [toString] property of its own, sent as [message], thus
    behaves like the string "[object Object]". *)
Theorem askdeck_depends_on_ToString (model : GenerativeModel)
    (props1 props2 : gmap string (jsval num)) :
  ToBoolean (default JUndefined (props1 !! "message")) = true ->
  ToBoolean (default JUndefined (props1 !! "context")) = true ->
  ToBoolean (default JUndefined (props2 !! "message")) = true ->
  ToBoolean (default JUndefined (props2 !! "context")) = true ->
  ToString (default JUndefined (props1 !! "message"))
  = ToString (default JUndefined (props2 !! "message")) ->
  ToString (default JUndefined (props1 !! "context"))
  = ToString (default JUndefined (props2 !! "context")) ->
  askdeck (Some model) (mkRequest (JObj props1))
  = askdeck (Some model) (mkRequest (JObj props2)).
Proof.
  intros Tm1 Tc1 Tm2 Tc2 Em Ec.
  assert (fullPrompt (default JUndefined (props1 !! "context"))
                     (default JUndefined (props1 !! "message"))
          = fullPrompt (default JUndefined (props2 !! "context"))
                       (default JUndefined (props2 !! "message"))) as Ep
    by (unfold fullPrompt; rewrite Em, Ec; reflexivity).
  destruct (fullPrompt (default JUndefined (props2 !! "context"))
                       (default JUndefined (props2 !! "message")))
    as [e | prompt] eqn:Hp2.
  { rewrite (askdeck_unprintable model (mkRequest (JObj props1)) _ _ e
               (GetV_object props1 "message") (GetV_object props1 "context") Tm1 Tc1 Ep).
    rewrite (askdeck_unprintable model (mkRequest (JObj props2)) _ _ e
               (GetV_object props2 "message") (GetV_object props2 "context") Tm2 Tc2 Hp2).
    reflexivity. }
  destruct (sendMessage model chatParams prompt) as [result | e] eqn:Hs.
  - rewrite (askdeck_resolved model (mkRequest (JObj props1)) _ _ prompt result
               (GetV_object props1 "message") (GetV_object props1 "context") Tm1 Tc1 Ep Hs).
    rewrite (askdeck_resolved model (mkRequest (JObj props2)) _ _ prompt result
               (GetV_object props2 "message") (GetV_object props2 "context") Tm2 Tc2 Hp2 Hs).
    reflexivity.
  - rewrite (askdeck_rejected model (mkRequest (JObj props1)) _ _ prompt e
               (GetV_object props1 "message") (GetV_object props1 "context") Tm1 Tc1 Ep Hs).
    rewrite (askdeck_rejected model (mkRequest (JObj props2)) _ _ prompt e
               (GetV_object props2 "message") (GetV_object props2 "context") Tm2 Tc2 Hp2 Hs).
    reflexivity.
Qed.

(** X7.  The boundary between context and question cannot be recovered
    from the prompt: text following the separator inside the context reads
    exactly like the beginning of the question. *)
Theorem fullPrompt_boundary_ambiguous (c x m : string) :
  fullPrompt (num:=num)
    (JStr (c +:+ (LF +:+ LF +:+ "---" +:+ LF +:+ LF +:+ "User Question: ") +:+ x))
    (JStr m)
  = fullPrompt (num:=num)
      (JStr c)
      (JStr (x +:+ (LF +:+ LF +:+ "---" +:+ LF +:+ LF +:+ "User Question: ") +:+ m)).
Proof.
  unfold fullPrompt. rewrite !ToString_string.
  rewrite !string_app_assoc. reflexivity.
Qed.

(** X8.  For a given context the prompt determines the question, and for a
    given question it determines the context (both strings). *)
Theorem fullPrompt_injective (c1 c2 m1 m2 : string) :
  fullPrompt (num:=num) (JStr c1) (JStr m1) = fullPrompt (num:=num) (JStr c2) (JStr m2) ->
  (c1 = c2 -> m1 = m2) /\ (m1 = m2 -> c1 = c2).
Proof.
  unfold fullPrompt. rewrite !ToString_string. intros E.
  injection E as E. split.
  - intros <-. apply string_app_inj_l in E.
    apply (string_app_inj_l (LF +:+ LF +:+ "---" +:+ LF +:+ LF +:+ "User Question: ")) in E.
    apply (string_app_inj_r (LF +:+ LF +:+ "AskDeck Response:")) in E. exact E.
  - intros <-.
    apply (string_app_inj_r
             (LF +:+ LF +:+ "---" +:+ LF +:+ LF +:+ "User Question: " +:+ m1
                +:+ LF +:+ LF +:+ "AskDeck Response:")) in E.
    exact E.
Qed.

(** X9.  The template adds 41 characters to what the two values print
    as: when both conversions return, the prompt is composed and its length
    is the sum of the two lengths plus 41. *)
Theorem fullPrompt_length (context message : jsval num) (sc sm : string) :
  ToString context = inr sc ->
  ToString message = inr sm ->
  exists prompt : string,
    fullPrompt context message = inr prompt
    /\ String.length prompt = (String.length sc + String.length sm + 41)%nat.
Proof.
  intros Ec Em. unfold fullPrompt. rewrite Ec, Em.
  eexists. split; [reflexivity |].
  rewrite !string_length_app.
  generalize (String.length sc) (String.length sm).
  intros a b. cbn [String.length LF]. lia.
Qed.
End Invariants.

(** ** Beyond the claims: startup and the listen callback *)

Section Boot.
Context {num : Type} `{JsRuntime num}.

Lemma startup_returns (apiKey : option string)
    (getGenerativeModel : string -> string -> JsError + GenerativeModel) :
  snd (startup (num:=num) apiKey getGenerativeModel)
  = inr (initial_model (startup (num:=num) apiKey getGenerativeModel)).
Proof.
  destruct apiKey as [[|c key]|]; try reflexivity.
  unfold startup.
  destruct (getGenerativeModel (String c key) MODEL_ID); reflexivity.
Qed.

Lemma error_body_inj (a b : string) :
  JObj (num:=num) {[ "error" := JStr a ]} = JObj {[ "error" := JStr b ]} -> a = b.
Proof.
  intros E.
  apply (f_equal (fun v : jsval num =>
                    match v with JObj m => m !! "error" | _ => None end)) in E.
  change (({[ "error" := JStr a ]} : gmap string (jsval num)) !! "error"
          = ({[ "error" := JStr b ]} : gmap string (jsval num)) !! "error") in E.
  rewrite !lookup_singleton_eq in E. congruence.
Qed.

(** X10.  The gateway comes up enabled exactly when the key is a non-empty
    string and the construction of the client for that key returns. *)
Theorem startup_enabled_iff (apiKey : option string)
    (getGenerativeModel : string -> string -> JsError + GenerativeModel)
    (model : GenerativeModel) :
  initial_model (startup (num:=num) apiKey getGenerativeModel) = Some model
  <-> exists c key,
        apiKey = Some (String c key) /\
        getGenerativeModel (String c key) MODEL_ID = inr model.
Proof.
  split.
  - destruct apiKey as [[|c key]|]; try discriminate.
    unfold startup.
    destruct (getGenerativeModel (String c key) MODEL_ID) as [e | m] eqn:E;
      [discriminate |].
    intros [= <-]. eauto.
  - intros (c & key & -> & E). exact (startup_enabled c key model _ E).
Qed.

(** X11.  The startup code never throws, not even when the construction of
    the client does, and it writes exactly one line to the console: at log
    level when the gateway is enabled, at error level when it is not. *)
Theorem startup_logs_once (apiKey : option string)
    (getGenerativeModel : string -> string -> JsError + GenerativeModel) :
  snd (startup (num:=num) apiKey getGenerativeModel)
  = inr (initial_model (startup (num:=num) apiKey getGenerativeModel))
  /\ exists args,
       trace (startup (num:=num) apiKey getGenerativeModel)
       = [Console (match initial_model (startup (num:=num) apiKey getGenerativeModel) with
                   | Some _ => LevelLog
                   | None => LevelError
                   end) args].
Proof.
  split; [apply startup_returns |].
  destruct apiKey as [[|c key]|]; try (eexists; reflexivity).
  unfold startup.
  destruct (getGenerativeModel (String c key) MODEL_ID); eexists; reflexivity.
Qed.

(** The second line of the listen callback, whatever the first one is. *)
Lemma listening_lines (port : string + Z) (apiKey : option string)
    (model : option GenerativeModel) :
  exists line : string,
    console_output (trace (listening (num:=num) port apiKey model))
    = [ (LevelLog, [LStr ("AskDeck API backend is listening on port " +:+ PORT_toString port)]);
        (LevelLog, [LStr line]) ]
    /\ line = match apiKey, model with
              | Some (String _ _), Some _ => "Backend ready."
              | Some (String _ _), None =>
                  "WARNING: Google AI Model could not be initialized. Verify the model ID in server.js and API key permissions."
              | _, _ => "WARNING: GOOGLE_API_KEY is missing."
              end.
Proof.
  destruct apiKey as [[|c key]|]; try destruct model;
    eexists; (split; [reflexivity | reflexivity]).
Qed.

Lemma port_line_is_no_report (port : string + Z) (line : string) :
  line = "Backend ready." \/
  line = "WARNING: GOOGLE_API_KEY is missing." \/
  line = "WARNING: Google AI Model could not be initialized. Verify the model ID in server.js and API key permissions." ->
  (LevelLog, [LStr ("AskDeck API backend is listening on port " +:+ PORT_toString port)])
  <> (LevelLog, [LStr line]).
Proof.
  intros Hl E. injection E as E.
  destruct Hl as [-> | [-> | ->]]; cbv [String.append] in E; discriminate.
Qed.

(** X12.  When the listen callback runs, with the key read at startup and
    the handle the startup code left, it writes two lines, and the second
    tells the state of the gateway: "Backend ready." exactly when the
    gateway is enabled, the missing-key warning exactly when the key is
    absent or empty, and the could-not-be-initialized warning exactly when
    the key is a non-empty string and the construction of the client
    threw. *)
Theorem listening_reports_startup (port : string + Z) (apiKey : option string)
    (getGenerativeModel : string -> string -> JsError + GenerativeModel) :
  length (console_output
            (trace (listening (num:=num) port apiKey
                      (initial_model (startup (num:=num) apiKey getGenerativeModel)))))
  = 2%nat
  /\ ((LevelLog, [LStr "Backend ready."])
        ∈ console_output
            (trace (listening (num:=num) port apiKey
                      (initial_model (startup (num:=num) apiKey getGenerativeModel))))
      <-> is_Some (initial_model (startup (num:=num) apiKey getGenerativeModel)))
  /\ ((LevelLog, [LStr "WARNING: GOOGLE_API_KEY is missing."])
        ∈ console_output
            (trace (listening (num:=num) port apiKey
                      (initial_model (startup (num:=num) apiKey getGenerativeModel))))
      <-> apiKey = None \/ apiKey = Some "")
  /\ ((LevelLog, [LStr "WARNING: Google AI Model could not be initialized. Verify the model ID in server.js and API key permissions."])
        ∈ console_output
            (trace (listening (num:=num) port apiKey
                      (initial_model (startup (num:=num) apiKey getGenerativeModel))))
      <-> exists c key e,
            apiKey = Some (String c key) /\
            getGenerativeModel (String c key) MODEL_ID = inl e).
Proof.
  destruct (listening_lines port apiKey
              (initial_model (startup (num:=num) apiKey getGenerativeModel)))
    as (line & -> & Hline).
  split; [reflexivity |].
  assert (forall report : string,
            report = "Backend ready." \/
            report = "WARNING: GOOGLE_API_KEY is missing." \/
            report = "WARNING: Google AI Model could not be initialized. Verify the model ID in server.js and API key permissions." ->
            (LevelLog, [LStr report])
              ∈ [ (LevelLog, [LStr ("AskDeck API backend is listening on port " +:+ PORT_toString port)]);
                  (LevelLog, [LStr line]) ]
            <-> report = line) as Hmem.
  { intros report Hr. rewrite !elem_of_cons. split.
    - intros [E | [E | E]].
      + exfalso. exact (port_line_is_no_report port report Hr (eq_sym E)).
      + congruence.
      + inversion E.
    - intros ->. auto. }
  rewrite !Hmem by auto. subst line.
  destruct apiKey as [[|c key]|].
  1, 3: split; [| split]; split;
    solve [ discriminate | intros [m Hm]; discriminate | auto
          | intros (c & key & e & E & _); discriminate ].
  unfold startup.
  destruct (getGenerativeModel (String c key) MODEL_ID) as [e | m] eqn:E.
  - change (initial_model _) with (@None GenerativeModel).
    split; [| split]; split;
      solve [ discriminate | intros [m Hm]; discriminate
            | intros [D | D]; discriminate | eauto ].
  - change (initial_model _) with (Some m).
    split; [| split]; split;
      solve [ discriminate | eauto | intros [D | D]; discriminate
            | intros (c' & key' & e' & [= <- <-] & E'); congruence ].
Qed.

(** X13.  What the listen callback reports is what the clients get: when
    it runs, with the key read at startup and the handle the startup code
    left, it writes "Backend ready." exactly when POST /api/askdeck is not
    answered with the configuration error. *)
Theorem readiness_matches_requests (port : string + Z) (apiKey : option string)
    (getGenerativeModel : string -> string -> JsError + GenerativeModel)
    (req : Request num) :
  (LevelLog, [LStr "Backend ready."])
    ∈ console_output
        (trace (listening (num:=num) port apiKey
                  (initial_model (startup (num:=num) apiKey getGenerativeModel))))
  <-> responses (trace (askdeck (initial_model (startup (num:=num) apiKey getGenerativeModel)) req))
      <> [(500, JObj {[ "error" := JStr "AI service is not configured correctly on the server. Check model ID and API key." ]})].
Proof.
  destruct (listening_lines port apiKey
              (initial_model (startup (num:=num) apiKey getGenerativeModel)))
    as (line & -> & Hline).
  assert ((LevelLog, [LStr "Backend ready."])
            ∈ [ (LevelLog, [LStr ("AskDeck API backend is listening on port " +:+ PORT_toString port)]);
                (LevelLog, [LStr line]) ]
          <-> "Backend ready." = line) as ->.
  { rewrite !elem_of_cons. split.
    - intros [E | [E | E]].
      + exfalso. apply (port_line_is_no_report port "Backend ready."); auto.
      + congruence.
      + inversion E.
    - intros ->. auto. }
  subst line.
  destruct (initial_model (startup (num:=num) apiKey getGenerativeModel))
    as [m|] eqn:Hmodel.
  - assert (exists c key, apiKey = Some (String c key)) as (c & key & ->).
    { destruct apiKey as [[|c key]|]; [discriminate | eauto | discriminate]. }
    split; [| reflexivity].
    intros _.
    destruct (askdeck_takes_a_path (Some m) req);
      try discriminate; intros [= E];
      try (apply error_body_inj in E; cbv in E; discriminate).
  - split.
    + destruct apiKey as [[|c key]|]; discriminate.
    + intros Hne. exfalso. apply Hne. reflexivity.
Qed.

(** X14.  The port announced is the value of PORT, verbatim, when it is
    set to a non-empty string, and 3000 when it is unset or empty. *)
Theorem listening_announces_port (env_PORT apiKey : option string)
    (model : option GenerativeModel) :
  console_output (trace (listening (num:=num) (PORT env_PORT) apiKey model)) !! 0%nat
  = Some (LevelLog,
          [LStr ("AskDeck API backend is listening on port " +:+
                 match env_PORT with
                 | Some (String c s) => String c s
                 | Some EmptyString | None => "3000"
                 end)]).
Proof.
  destruct env_PORT as [[|c s]|]; destruct apiKey as [[|c' k]|];
    try destruct model; reflexivity.
Qed.
End Boot.

(** ** Beyond the claims: the earlier revision against the current one *)

Section Revisions.
Context {num : Type} `{JsRuntime num}.

Lemma earlier_askdeck_resolved (model : GenerativeModel) (req : Request num)
    (message context : jsval num) (prompt : string) (result : Result) :
  GetV (req_body req) "message" = inr message ->
  GetV (req_body req) "context" = inr context ->
  ToBoolean message = true ->
  ToBoolean context = true ->
  fullPrompt context message = inr prompt ->
  sendMessage model Earlier.chatParams prompt = Resolved result ->
  Earlier.askdeck (Some model) req
  = (Submit Earlier.chatParams prompt :: trace (Earlier.relay result), inr tt).
Proof.
  intros Hm Hc Tm Tc Hp Hs.
  unfold Earlier.askdeck. rewrite Hm, Hc, !bind_lift_inr, Tm, Tc.
  cbn [negb orb]. rewrite Hp, bind_lift_inr. unfold submit. rewrite Hs.
  assert (snd (Earlier.relay (num:=num) result) = inr tt) as Hr.
  { unfold Earlier.relay.
    destruct (first_candidate_parts result) as [[|p0 ps]|]; reflexivity. }
  cbv beta iota zeta delta
    [mbind js_mbind js_bind emit mret js_mret js_ret try_catch trace app fst].
  destruct (Earlier.relay result) as [t r]. simpl in Hr. subst r. reflexivity.
Qed.

Lemma earlier_askdeck_rejected (model : GenerativeModel) (req : Request num)
    (message context : jsval num) (prompt : string) (error : JsError) :
  GetV (req_body req) "message" = inr message ->
  GetV (req_body req) "context" = inr context ->
  ToBoolean message = true ->
  ToBoolean context = true ->
  fullPrompt context message = inr prompt ->
  sendMessage model Earlier.chatParams prompt = Rejected error ->
  Earlier.askdeck (Some model) req
  = ([ Submit Earlier.chatParams prompt;
       Console LevelError [LStr "Error in /api/askdeck endpoint:";
                           LStr (error_message error); LStr (error_stack error)];
       Send 500 (JObj {[ "error" := JStr ("Failed to get response from AI: " +:+ error_message error) ]}) ],
     inr tt).
Proof.
  intros Hm Hc Tm Tc Hp Hs.
  unfold Earlier.askdeck. rewrite Hm, Hc, !bind_lift_inr, Tm, Tc.
  cbn [negb orb]. rewrite Hp, bind_lift_inr. unfold submit. rewrite Hs. reflexivity.
Qed.

Lemma relay_same_responses (result : Result) :
  responses (trace (Earlier.relay (num:=num) result))
  = responses (trace (relay (num:=num) result)).
Proof.
  unfold Earlier.relay, relay.
  destruct (first_candidate_parts result) as [[|p0 ps]|]; try reflexivity;
    destruct (prompt_blockReason result) as [[|c r]|]; reflexivity.
Qed.

Lemma relay_no_submission (result : Result) :
  submissions (trace (Earlier.relay (num:=num) result)) = []
  /\ submissions (trace (relay (num:=num) result)) = [].
Proof.
  unfold Earlier.relay, relay.
  destruct (first_candidate_parts result) as [[|p0 ps]|];
    try (split; reflexivity);
    destruct (prompt_blockReason result) as [[|c r]|]; split; reflexivity.
Qed.

(** X15.  With the gateway enabled, the revision changed no response: when
    the remote service settles a prompt the same way under the earlier
    settings (temperature 0.7) as under the current ones (0.1), both
    revisions send the same response to every request, and they submit the
    same prompts. *)
Theorem revisions_same_responses (model : GenerativeModel) (req : Request num) :
  (forall prompt,
     sendMessage model Earlier.chatParams prompt = sendMessage model chatParams prompt) ->
  responses (trace (Earlier.askdeck (Some model) req))
  = responses (trace (askdeck (Some model) req))
  /\ (submissions (trace (Earlier.askdeck (Some model) req))).*2
     = (submissions (trace (askdeck (Some model) req))).*2.
Proof.
  intros Hsame.
  destruct (GetV_cases (req_body req)) as [[_ Hthrow] | (_ & _ & f & Hf)].
  - rewrite (askdeck_throwing_body model req _ (Hthrow "message")).
    unfold Earlier.askdeck. rewrite (Hthrow "message"). split; reflexivity.
  - pose proof (Hf "message") as Hm. pose proof (Hf "context") as Hc.
    destruct (ToBoolean (f "message")) eqn:Tm;
      [destruct (ToBoolean (f "context")) eqn:Tc |].
    + destruct (fullPrompt (f "context") (f "message")) as [e | prompt] eqn:Hp.
      { rewrite (askdeck_unprintable _ _ _ _ _ Hm Hc Tm Tc Hp).
        unfold Earlier.askdeck. rewrite Hm, Hc, !bind_lift_inr, Tm, Tc.
        cbn [negb orb]. rewrite Hp. split; reflexivity. }
      destruct (sendMessage model chatParams prompt) as [result | e] eqn:Hs.
      * rewrite (askdeck_resolved _ _ _ _ _ _ Hm Hc Tm Tc Hp Hs).
        rewrite <- Hsame in Hs.
        rewrite (earlier_askdeck_resolved _ _ _ _ _ _ Hm Hc Tm Tc Hp Hs).
        destruct (relay_no_submission result) as [S1 S2].
        unfold trace in *. cbn [fst].
        change (responses (trace (Earlier.relay (num:=num) result))
                = responses (trace (relay (num:=num) result))
                /\ ((Earlier.chatParams, prompt)
                      :: submissions (trace (Earlier.relay (num:=num) result))).*2
                   = ((chatParams, prompt)
                      :: submissions (trace (relay (num:=num) result))).*2).
        unfold trace. rewrite S1, S2. split; [apply relay_same_responses | reflexivity].
      * rewrite (askdeck_rejected _ _ _ _ _ _ Hm Hc Tm Tc Hp Hs).
        rewrite <- Hsame in Hs.
        rewrite (earlier_askdeck_rejected _ _ _ _ _ _ Hm Hc Tm Tc Hp Hs).
        split; reflexivity.
    + rewrite (askdeck_invalid model req _ _ Hm Hc (or_intror Tc)).
      unfold Earlier.askdeck. rewrite Hm, Hc, !bind_lift_inr, Tm, Tc.
      split; reflexivity.
    + rewrite (askdeck_invalid model req _ _ Hm Hc (or_introl Tm)).
      unfold Earlier.askdeck. rewrite Hm, Hc, !bind_lift_inr, Tm.
      split; reflexivity.
Qed.

(** X16.  What the revision changed on the console: for a resolved result
    whose first candidate has no parts, the earlier revision always writes
    the raw response at error level, blocked or not; the current one, when
    a block reason is present, writes the reason and the prompt feedback at
    warn level instead. *)
Theorem revisions_console_on_failure (model : GenerativeModel) (req : Request num)
    (message context : jsval num) (prompt : string) (result : Result) :
  GetV (req_body req) "message" = inr message ->
  GetV (req_body req) "context" = inr context ->
  ToBoolean message = true ->
  ToBoolean context = true ->
  fullPrompt context message = inr prompt ->
  sendMessage model Earlier.chatParams prompt = Resolved result ->
  sendMessage model chatParams prompt = Resolved result ->
  first_candidate_parts result = None \/ first_candidate_parts result = Some [] ->
  console_output (trace (Earlier.askdeck (Some model) req))
  = [(LevelError, [LStr "No valid candidate response from AI:";
                   LResponse (response result)])]
  /\ (forall reason, prompt_blockReason result = Some reason -> reason <> "" ->
        console_output (trace (askdeck (Some model) req))
        = [(LevelWarn, [LStr "AI response blocked. Reason:"; LStr reason;
                        LFeedback (response result ≫= promptFeedback)])]).
Proof.
  intros Hm Hc Tm Tc Hp Hs1 Hs2 Hfc. split.
  - rewrite (earlier_askdeck_resolved _ _ _ _ _ _ Hm Hc Tm Tc Hp Hs1).
    unfold Earlier.relay. destruct Hfc as [-> | ->]; reflexivity.
  - intros reason Hb Hne.
    rewrite (askdeck_resolved _ _ _ _ _ _ Hm Hc Tm Tc Hp Hs2).
    rewrite (relay_blocked result reason Hfc Hb Hne). reflexivity.
Qed.
End Revisions.

(** ** The further properties on concrete requests *)

Lemma askdeck_body_shape_paris :
  (200 = 200 /\ exists v : jsval safe_int,
      JObj {[ "reply" := JStr "Paris" ]} = JObj {[ "reply" := v ]})
  \/ ((200 = 400 \/ 200 = 500) /\
      exists msg : string,
        JObj (num:=safe_int) {[ "reply" := JStr "Paris" ]} = JObj {[ "error" := JStr msg ]}).
Proof.
  apply (askdeck_body_shape (Some (stub (Resolved paris_result))) ask_capital).
  apply list_elem_of_singleton. reflexivity.
Defined.

Lemma string_body_rejected :
  responses (trace (askdeck (Some (stub (Resolved paris_result)))
                            (mkRequest (JStr "What is the capital?"))))
  = [(400, JObj {[ "error" := JStr "Message and context are required." ]})]
  /\ submissions (trace (askdeck (Some (stub (Resolved paris_result)))
                                 (mkRequest (JStr "What is the capital?")))) = [].
Proof.
  apply (non_object_body_rejected (num:=safe_int) (stub (Resolved paris_result))
           (mkRequest (JStr "What is the capital?")));
    [discriminate | discriminate | intros props; discriminate].
Defined.

Lemma blocked_handler_logs_once :
  length (console_output (trace (askdeck (Some (stub (Resolved blocked_result))) ask_capital)))
  = 1%nat.
Proof.
  apply (askdeck_console_discipline (Some (stub (Resolved blocked_result))) ask_capital
           500 (JObj {[ "error" := JStr "Response blocked: SAFETY" ]})).
  apply list_elem_of_singleton. reflexivity.
Defined.

Lemma object_message_is_object_Object :
  askdeck (Some (stub (Resolved paris_result))) ask_object
  = askdeck (Some (stub (Resolved paris_result))) ask_object_Object.
Proof.
  apply (askdeck_depends_on_ToString (num:=safe_int) (stub (Resolved paris_result))
           (<[ "message" := JObj {[ "text" := JStr "What is the capital?" ]} ]>
            {[ "context" := JStr "France is a country in Europe." ]})
           (<[ "message" := JStr "[object Object]" ]>
            {[ "context" := JStr "France is a country in Europe." ]}));
    reflexivity.
Defined.

Lemma fullPrompt_length_array_context :
  exists prompt : string,
    fullPrompt (JArr [JStr "France"; JNull; JBool true] : jsval safe_int)
               (JStr "What is the capital?")
    = inr prompt
    /\ String.length prompt = 73%nat.
Proof.
  apply (fullPrompt_length (num:=safe_int)
           (JArr [JStr "France"; JNull; JBool true]) (JStr "What is the capital?")
           "France,,true" "What is the capital?");
    reflexivity.
Defined.

Lemma fullPrompt_injective_capital :
  ("France is a country in Europe." = "France is a country in Europe." ->
   "What is the capital?" = "What is the capital?")
  /\ ("What is the capital?" = "What is the capital?" ->
      "France is a country in Europe." = "France is a country in Europe.").
Proof.
  apply (fullPrompt_injective (num:=safe_int)
           "France is a country in Europe." "France is a country in Europe."
           "What is the capital?" "What is the capital?").
  reflexivity.
Defined.

Lemma revisions_same_responses_paris :
  responses (trace (Earlier.askdeck (Some (stub (Resolved paris_result))) ask_capital))
  = responses (trace (askdeck (Some (stub (Resolved paris_result))) ask_capital))
  /\ (submissions (trace (Earlier.askdeck (Some (stub (Resolved paris_result))) ask_capital))).*2
     = (submissions (trace (askdeck (Some (stub (Resolved paris_result))) ask_capital))).*2.
Proof.
  apply (revisions_same_responses (num:=safe_int) (stub (Resolved paris_result)) ask_capital).
  intros prompt. reflexivity.
Defined.

Lemma revisions_console_blocked :
  console_output (trace (Earlier.askdeck (Some (stub (Resolved blocked_result))) ask_capital))
  = [(LevelError, [LStr "No valid candidate response from AI:";
                   LResponse (response blocked_result)])]
  /\ console_output (trace (askdeck (Some (stub (Resolved blocked_result))) ask_capital))
     = [(LevelWarn, [LStr "AI response blocked. Reason:"; LStr "SAFETY";
                     LFeedback (response blocked_result ≫= promptFeedback)])].
Proof.
  destruct (revisions_console_on_failure (num:=safe_int)
               (stub (Resolved blocked_result)) ask_capital
               (JStr "What is the capital?") (JStr "France is a country in Europe.")
               ("France is a country in Europe." +:+ LF +:+ LF +:+ "---" +:+ LF +:+ LF +:+
                "User Question: What is the capital?" +:+ LF +:+ LF +:+ "AskDeck Response:")
               blocked_result)
    as [E1 E2]; try reflexivity; [left; reflexivity |].
  split; [exact E1 | apply E2; [reflexivity | discriminate]].
Defined.
